(** * Verification of the hotel-opinion crawler ([scrap_data.py])

    The crawler is embedded shallowly: Python strings are Rocq strings,
    the parsed HTML document is an inductive tree, the link rewriting and
    the opinion extraction are pure functions, and the network-facing part
    ([fetch_page], [scrape_hotel_opinions], [main]) threads an explicit
    session state through a small state-and-exception monad. *)

From Stdlib Require Import String Ascii List ZArith Lia Bool Arith.
Import ListNotations.
Open Scope string_scope.

(* ================================================================= *)
(** ** Python string operations used by the crawler *)

Module PyStr.

(** [s.split(sep)] for a one-character separator: never empty. *)
Fixpoint split (sep : ascii) (s : string) : list string :=
  match s with
  | EmptyString => [EmptyString]
  | String c r =>
      if Ascii.eqb c sep then EmptyString :: split sep r
      else match split sep r with
           | p :: ps => String c p :: ps
           | [] => [String c EmptyString]
           end
  end.

(** [sep.join(parts)]. *)
Fixpoint join (sep : string) (parts : list string) : string :=
  match parts with
  | [] => EmptyString
  | [p] => p
  | p :: ps => p ++ sep ++ join sep ps
  end.

(** [c in s] for a one-character [c]. *)
Fixpoint contains (c : ascii) (s : string) : bool :=
  match s with
  | EmptyString => false
  | String a r => Ascii.eqb a c || contains c r
  end.

(** [s.rfind(c)] for a one-character [c]: the highest index of [c] in
    [s], and [-1] when [c] does not occur. *)
Fixpoint rfind (c : ascii) (s : string) : Z :=
  match s with
  | EmptyString => (-1)%Z
  | String a r =>
      let i := rfind c r in
      if (0 <=? i)%Z then (i + 1)%Z
      else if Ascii.eqb a c then 0%Z else (-1)%Z
  end.

Fixpoint take (n : nat) (s : string) : string :=
  match n, s with
  | S n', String c r => String c (take n' r)
  | _, _ => EmptyString
  end.

Fixpoint drop (n : nat) (s : string) : string :=
  match n, s with
  | S n', String _ r => drop n' r
  | _, _ => s
  end.

(** A slice bound as Python normalises it: a negative bound counts from
    the end, and every bound is clipped to [0 .. len]. *)
Definition bound (s : string) (k : Z) : nat :=
  let len := Z.of_nat (String.length s) in
  Z.to_nat (if (k <? 0)%Z then Z.max 0 (len + k) else Z.min k len).

(** [s[:k]] and [s[k:]]. *)
Definition slice_to (s : string) (k : Z) : string := take (bound s k) s.
Definition slice_from (s : string) (k : Z) : string := drop (bound s k) s.

(** [str.isspace] on the characters below 256. *)
Definition isspace (c : ascii) : bool :=
  let n := nat_of_ascii c in
  (((9 <=? n) && (n <=? 13)) || ((28 <=? n) && (n <=? 32))
   || (n =? 133) || (n =? 160))%nat.

Fixpoint lstrip (s : string) : string :=
  match s with
  | EmptyString => EmptyString
  | String c r => if isspace c then lstrip r else s
  end.

Fixpoint rstrip (s : string) : string :=
  match s with
  | EmptyString => EmptyString
  | String c r =>
      match rstrip r with
      | EmptyString => if isspace c then EmptyString else String c EmptyString
      | r' => String c r'
      end
  end.

(** [s.strip()]. *)
Definition strip (s : string) : string := rstrip (lstrip s).

(** [str(x)] where [x] is a string or [None]. *)
Definition str (x : option string) : string :=
  match x with
  | Some s => s
  | None => "None"
  end.

End PyStr.

(* ================================================================= *)
(** ** The parsed document (BeautifulSoup tree)

    A tag carries its name, the list of its classes, its [href]
    attribute when it has one, and its children; no other attribute is
    read by the crawler.  The document itself is a tag. *)

#[local] Set Warnings "-register-all".

Inductive node : Type :=
| NavigableString (text : string)
| Tag (name : string) (class_ : list string) (href : option string)
      (contents : list node).

Module Soup.

(** [tag.descendants]: every node below the tag, in document order. *)
Fixpoint descendants (n : node) : list node :=
  match n with
  | NavigableString _ => []
  | Tag _ _ _ cs => flat_map (fun c => c :: descendants c) cs
  end.

(** Does a node answer to [find(name, class_=cls)]?  Without a class
    filter only the tag name counts. *)
Definition matches (name : string) (cls : option string) (n : node) : bool :=
  match n with
  | NavigableString _ => false
  | Tag nm classes _ _ =>
      String.eqb nm name &&
      match cls with
      | None => true
      | Some c => existsb (String.eqb c) classes
      end
  end.

(** [tag.find_all(name, class_=cls)]. *)
Definition find_all (name : string) (cls : option string) (n : node)
  : list node :=
  filter (matches name cls) (descendants n).

(** [tag.find(name, class_=cls)]: the first match, or [None]. *)
Definition find (name : string) (cls : option string) (n : node)
  : option node :=
  hd_error (find_all name cls n).

(** [tag.get("href")]. *)
Definition get_href (n : node) : option string :=
  match n with
  | NavigableString _ => None
  | Tag _ _ h _ => h
  end.

(** The text pieces [get_text(strip=True)] joins: each string below the
    tag, stripped, the ones that strip to nothing left out. *)
Fixpoint stripped_strings (ns : list node) : list string :=
  match ns with
  | [] => []
  | NavigableString s :: rest =>
      match PyStr.strip s with
      | EmptyString => stripped_strings rest
      | t => t :: stripped_strings rest
      end
  | Tag _ _ _ _ :: rest => stripped_strings rest
  end.

(** [tag.get_text(strip=True)]. *)
Definition get_text_strip (n : node) : string :=
  PyStr.join "" (stripped_strings (descendants n)).

End Soup.

(* ================================================================= *)
(** ** The pure part of [scrap_data.py] *)

(** The only exception the crawler itself can raise: a method called on
    [None]. *)
Inductive exn : Type := AttributeError.

Inductive result (A : Type) : Type :=
| Ok (a : A)
| Err (e : exn).
Arguments Ok {A} a.
Arguments Err {A} e.

Definition hotel_prefix : string := "https://www.wakacje.pl/opinie/hotele/".

(** The body of the [for link in offer_links] loop, from the href on. *)
Definition rewrite_href (href : string) : string :=
  let parts := PyStr.split "/" href in
  let url := hotel_prefix ++ PyStr.join "/" (skipn 3 parts) in
  let index_href := PyStr.rfind "-" url in
  PyStr.slice_to url (index_href + 1) ++ "h"
    ++ PyStr.slice_from url (index_href + 1).

(** The [for] loop of [parse_hotel_links]; [urls] is the list built so
    far.  An anchor without href makes [.split] fail on [None]. *)
Fixpoint for_offer_links (offer_links : list node) (urls : list string)
  : result (list string) :=
  match offer_links with
  | [] => Ok urls
  | link :: rest =>
      match Soup.get_href link with
      | None => Err AttributeError
      | Some href => for_offer_links rest (urls ++ [rewrite_href href])
      end
  end.

Definition parse_hotel_links (soup : node) : result (list string) :=
  match Soup.find "div" (Some "swiper-wrapper") soup with
  | None => Ok []
  | Some frequently_rated =>
      for_offer_links (Soup.find_all "a" None frequently_rated) []
  end.

Definition extract_opinions (soup : node) : list string :=
  match Soup.find "div" (Some "opinions__list") soup with
  | None => []
  | Some opinions_list =>
      map Soup.get_text_strip
        (Soup.find_all "p" (Some "opinion__attributes-content") opinions_list)
  end.

(** *** Vocabulary of the statements about documents *)

(** [n] is a tag called [name] that carries the class [cls]. *)
Definition is_marked (name cls : string) (n : node) : Prop :=
  exists classes h cs, n = Tag name classes h cs /\ In cls classes.

(** No tag called [name] below [soup] carries the class [cls]. *)
Definition lacks_marker (name cls : string) (soup : node) : Prop :=
  forall n, In n (Soup.descendants soup) -> ~ is_marked name cls n.

(** Every anchor of the list carries an href; [hrefs] are their values. *)
Definition hrefs_of (links : list node) (hrefs : list string) : Prop :=
  map Soup.get_href links = map Some hrefs.

(** The part of the rewritten URL after the fixed prefix: the segments of
    the href from the fourth on. *)
Definition remainder (href : string) : string :=
  PyStr.join "/" (skipn 3 (PyStr.split "/" href)).

(** The URL the pagination loop requests after [page]: defined when the
    page has a next-page control with an anchor in it. *)
Definition next_page_url (page : node) : option string :=
  match Soup.find "li" (Some "pagination__item--next") page with
  | None => None
  | Some li =>
      match Soup.find "a" None li with
      | None => None
      | Some a => Some ("https://www.wakacje.pl" ++ PyStr.str (Soup.get_href a))
      end
  end.

(* ================================================================= *)
(** ** The effectful part: fetching, walking the pages, the crawl *)

(** One object of the list [main] dumps as JSON. *)
Record entry : Type := { hotel_url : string; opinions : list string }.

Section Crawler.

(** The outside world: whatever decides the answer to a GET.  A request
    yields a parsed page, or fails with a [RequestException] ([None]),
    and may change the world, so that the same URL can be answered
    differently later. *)
Variable World : Type.
Variable http_get : World -> string -> option node * World.

(** What a run can observe and change: the world behind the session,
    the URLs requested so far, oldest first, and the content of
    [results/1_opinions.json] once it has been written. *)
Record state : Type := {
  world : World;
  requested : list string;
  opinions_json : option (list entry)
}.

Inductive outcome (A : Type) : Type :=
| Returned (a : A) (s : state)
| Raised (e : exn) (s : state)
| OutOfFuel.
Arguments Returned {A} a s.
Arguments Raised {A} e s.
Arguments OutOfFuel {A}.

Definition M (A : Type) : Type := state -> outcome A.

Definition ret {A} (a : A) : M A := fun s => Returned a s.

Definition bind {A B} (m : M A) (k : A -> M B) : M B :=
  fun s =>
    match m s with
    | Returned a s' => k a s'
    | Raised e s' => Raised e s'
    | OutOfFuel => OutOfFuel
    end.

Definition raise {A} (e : exn) : M A := fun s => Raised e s.

Definition lift {A} (r : result A) : M A :=
  match r with
  | Ok a => ret a
  | Err e => raise e
  end.

Local Notation "x <- m ;; k" := (bind m (fun x => k))
  (at level 61, m at next level, right associativity).

(** [fetch_page(session, url)]: the [try] turns every request failure
    into [None]. *)
Definition fetch_page (url : string) : M (option node) :=
  fun s =>
    let (page, w) := http_get (world s) url in
    Returned page {| world := w;
                     requested := requested s ++ [url];
                     opinions_json := opinions_json s |}.

(** The [while next_page:] loop of [scrape_hotel_opinions]; a tag is
    always true, so the loop runs as long as [find] found the control.
    [fuel] bounds the number of iterations. *)
Fixpoint while_next_page (fuel : nat) (opinions : list string)
         (next_page : option node) : M (list string) :=
  match next_page with
  | None => ret opinions
  | Some li =>
      match fuel with
      | O => fun _ => OutOfFuel
      | S fuel' =>
          a <- match Soup.find "a" None li with
               | Some a => ret a
               | None => raise AttributeError
               end ;;
          let next_page_url :=
            "https://www.wakacje.pl" ++ PyStr.str (Soup.get_href a) in
          soup <- fetch_page next_page_url ;;
          match soup with
          | Some soup =>
              while_next_page fuel'
                (opinions ++ extract_opinions soup)
                (Soup.find "li" (Some "pagination__item--next") soup)
          | None => ret opinions
          end
      end
  end.

Definition scrape_hotel_opinions (fuel : nat) (url : string)
  : M (list string) :=
  soup <- fetch_page url ;;
  match soup with
  | None => ret []
  | Some soup =>
      let opinions := extract_opinions soup in
      let next_page :=
        Soup.find "li" (Some "pagination__item--next") soup in
      while_next_page fuel opinions next_page
  end.

(** The [for hotel_url in hotel_urls] loop of [main]. *)
Fixpoint for_hotel_urls (fuel : nat) (hotel_urls : list string)
         (data : list entry) : M (list entry) :=
  match hotel_urls with
  | [] => ret data
  | hotel_url :: rest =>
      opinions <- scrape_hotel_opinions fuel hotel_url ;;
      for_hotel_urls fuel rest
        (data ++ [{| hotel_url := hotel_url; opinions := opinions |}])
  end.

(** [json.dump(data, json_file, ...)] on the freshly opened file. *)
Definition json_dump (data : list entry) : M unit :=
  fun s =>
    Returned tt {| world := world s;
                   requested := requested s;
                   opinions_json := Some data |}.

Definition main_url : string := "https://www.wakacje.pl/hotele/".

Definition main (fuel : nat) : M unit :=
  data <- (soup <- fetch_page main_url ;;
           match soup with
           | Some soup =>
               hotel_urls <- lift (parse_hotel_links soup) ;;
               for_hotel_urls fuel hotel_urls []
           | None => ret []
           end) ;;
  json_dump data.

(** The state [main] starts from: nothing requested, nothing written. *)
Definition initial (w : World) : state :=
  {| world := w; requested := []; opinions_json := None |}.

(** *** Vocabulary of the statements about walks *)

(** The state right after [url] was requested and the world became [w]. *)
Definition after_fetch (s : state) (url : string) (w : World) : state :=
  {| world := w;
     requested := requested s ++ [url];
     opinions_json := opinions_json s |}.

(** [served w u pages us w' u']: from world [w], requesting [u] and then
    following the next-page links answers with [pages], one after the
    other; [us] are the URLs requested for them, and the last page links
    on to [u'], with the world then being [w']. *)
Fixpoint served (w : World) (u : string) (pages : list node)
         (us : list string) (w' : World) (u' : string) : Prop :=
  match pages with
  | [] => us = [] /\ w' = w /\ u' = u
  | p :: rest =>
      exists w1 u1 us1,
        http_get w u = (Some p, w1) /\
        next_page_url p = Some u1 /\
        us = u :: us1 /\
        served w1 u1 rest us1 w' u'
  end.

(** Every walk of the run returns: the walks over [urls], the first one
    started in [s] and each next one in the state the walk before it
    left, all return. *)
Fixpoint run_walks_return (fuel : nat) (urls : list string) (s : state)
  : Prop :=
  match urls with
  | [] => True
  | u :: rest =>
      exists ops s1,
        scrape_hotel_opinions fuel u s = Returned ops s1 /\
        run_walks_return fuel rest s1
  end.

End Crawler.

Arguments world {World} s.
Arguments requested {World} s.
Arguments opinions_json {World} s.
Arguments Returned {World A} a s.
Arguments Raised {World A} e s.
Arguments OutOfFuel {World A}.
Arguments ret {World A} a s.
Arguments bind {World A B} m k s.
Arguments raise {World A} e s.
Arguments lift {World A} r s.
Arguments fetch_page {World} http_get url s.
Arguments while_next_page {World} http_get fuel opinions next_page s.
Arguments scrape_hotel_opinions {World} http_get fuel url s.
Arguments for_hotel_urls {World} http_get fuel hotel_urls data s.
Arguments json_dump {World} data s.
Arguments main {World} http_get fuel s.
Arguments initial {World} w.
Arguments after_fetch {World} s url w.
Arguments served {World} http_get w u pages us w' u'.
Arguments run_walks_return {World} http_get fuel urls s.

(* ================================================================= *)
(** ** Synthetic documents and sites *)

Module Synthetic.

Definition document (body : list node) : node :=
  Tag "[document]" [] None body.

Definition anchor (href : string) : node := Tag "a" [] (Some href) [].

(** A catalog page whose carousel holds one anchor per href. *)
Definition catalog (hrefs : list string) : node :=
  document [Tag "div" ["swiper-wrapper"] None (map anchor hrefs)].

(** A catalog page whose carousel holds an anchor without href. *)
Definition catalog_bare_anchor : node :=
  document [Tag "div" ["swiper-wrapper"] None [Tag "a" [] None []]].

Definition opinion (text : string) : node :=
  Tag "p" ["opinion__attributes-content"] None [NavigableString text].

Definition next_control (href : string) : node :=
  Tag "li" ["pagination__item--next"] None [anchor href].

(** A review page with the given opinions and, when [next] is given, a
    next-page control pointing there. *)
Definition review_page (texts : list string) (next : option string) : node :=
  document
    (Tag "div" ["opinions__list"] None (map opinion texts)
     :: match next with
        | Some href => [next_control href]
        | None => []
        end).

(** A site that answers from a fixed table and fails on any other URL. *)
Fixpoint lookup (table : list (string * node)) (url : string) : option node :=
  match table with
  | [] => None
  | (u, page) :: rest => if String.eqb u url then Some page else lookup rest url
  end.

Definition site (table : list (string * node))
  : unit -> string -> option node * unit :=
  fun _ url => (lookup table url, tt).

(** The end-to-end scenario: one carousel link, one review page. *)
Definition grand_catalog : node := catalog ["/pl/offer/123-grand-hotel"].
Definition grand_reviews : node :=
  review_page ["Great stay"; "Would return"] None.
Definition grand_site : unit -> string -> option node * unit :=
  site [("https://www.wakacje.pl/hotele/", grand_catalog);
        ("https://www.wakacje.pl/opinie/hotele/123-grand-hhotel",
         grand_reviews)].

(** The same scenario with the review page answered at every other
    URL, whatever the crawler asks for. *)
Definition grand_site_any : unit -> string -> option node * unit :=
  fun _ url =>
    (if String.eqb url "https://www.wakacje.pl/hotele/"
     then Some grand_catalog else Some grand_reviews, tt).

(** A hotel with three review pages linked 1 -> 2 -> 3. *)
Definition page1 : node := review_page ["a"; "b"] (Some "/opinie/hotele/x?p=2").
Definition page2 : node := review_page ["c"] (Some "/opinie/hotele/x?p=3").
Definition page3 : node := review_page ["d"; "e"] None.
Definition three_pages : unit -> string -> option node * unit :=
  site [("https://www.wakacje.pl/opinie/hotele/x", page1);
        ("https://www.wakacje.pl/opinie/hotele/x?p=2", page2);
        ("https://www.wakacje.pl/opinie/hotele/x?p=3", page3)].

(** The same hotel with the second page out of reach. *)
Definition second_page_down : unit -> string -> option node * unit :=
  site [("https://www.wakacje.pl/opinie/hotele/x", page1)].

(** A catalog fetch that fails, and a catalog with a bare anchor. *)
Definition offline : unit -> string -> option node * unit := site [].
Definition bare_site : unit -> string -> option node * unit :=
  site [("https://www.wakacje.pl/hotele/", catalog_bare_anchor)].

(** Two hotels: the first one is down, the second has one page. *)
Definition two_hotels_catalog : node :=
  catalog ["/pl/o/1-down"; "/pl/o/2-up"].
Definition two_hotels : unit -> string -> option node * unit :=
  site [("https://www.wakacje.pl/hotele/", two_hotels_catalog);
        ("https://www.wakacje.pl/opinie/hotele/2-hup", review_page ["ok"] None)].

End Synthetic.

(* ================================================================= *)
(** ** More synthetic pages: broken and cyclic pagination *)

Module Broken.

(** A review page whose next-page control holds no anchor. *)
Definition bare_control_page : node :=
  Synthetic.document
    [Tag "div" ["opinions__list"] None [Synthetic.opinion "kept?"];
     Tag "li" ["pagination__item--next"] None []].

(** A review page whose next-page anchor has no href. *)
Definition bare_anchor_page : node :=
  Synthetic.document
    [Tag "div" ["opinions__list"] None [Synthetic.opinion "first"];
     Tag "li" ["pagination__item--next"] None [Tag "a" [] None []]].

(** A review page that links to itself, answered at every URL. *)
Definition loop_page : node :=
  Synthetic.review_page ["again"] (Some "/opinie/hotele/x").
Definition loop_site : unit -> string -> option node * unit :=
  fun _ _ => (Some loop_page, tt).

Definition bare_control_site : unit -> string -> option node * unit :=
  Synthetic.site [("https://www.wakacje.pl/opinie/hotele/x", Synthetic.page1);
                  ("https://www.wakacje.pl/opinie/hotele/x?p=2",
                   bare_control_page)].

Definition bare_anchor_hotel : unit -> string -> option node * unit :=
  Synthetic.site [("https://www.wakacje.pl/opinie/hotele/x", bare_anchor_page)].

(** A catalog page without carousel, as the whole site. *)
Definition plain_site : unit -> string -> option node * unit :=
  Synthetic.site [("https://www.wakacje.pl/hotele/", Synthetic.grand_reviews)].

(** An opinion paragraph with nested markup:
    [<p class="opinion__attributes-content"> Great <b>stay</b> </p>]. *)
Definition nested_opinion : node :=
  Tag "p" ["opinion__attributes-content"] None
      [NavigableString " Great ";
       Tag "b" [] None [NavigableString "stay"];
       NavigableString " "].
Definition nested_opinion_page : node :=
  Synthetic.document [Tag "div" ["opinions__list"] None [nested_opinion]].

(** A catalog with two links, the first hotel's page having a next-page
    control without anchor. *)
Definition crash_site : unit -> string -> option node * unit :=
  Synthetic.site [("https://www.wakacje.pl/hotele/", Synthetic.two_hotels_catalog);
                  ("https://www.wakacje.pl/opinie/hotele/1-hdown",
                   bare_control_page);
                  ("https://www.wakacje.pl/opinie/hotele/2-hup",
                   Synthetic.review_page ["ok"] None)].

End Broken.

(* ================================================================= *)
(** ** The opinion extractor as it is described

    What the description of [extract_opinions] speaks of, defined on the
    tree itself: the nodes below a node, the marked elements inside it in
    document order, the strings of an element and its text. *)

Module OpinionSpec.

(** [below n d]: [d] is a child of [n], or lies below a child of [n]. *)
Inductive below : node -> node -> Prop :=
| below_child (name : string) (cl : list string) (h : option string)
              (cs : list node) (c : node) :
    In c cs -> below (Tag name cl h cs) c
| below_deeper (name : string) (cl : list string) (h : option string)
               (cs : list node) (c d : node) :
    In c cs -> below c d -> below (Tag name cl h cs) d.

(** Is [n] a tag called [name] that carries the class [cls]? *)
Definition marked (name cls : string) (n : node) : bool :=
  match n with
  | NavigableString _ => false
  | Tag nm classes _ _ =>
      String.eqb nm name && existsb (String.eqb cls) classes
  end.

(** The marked elements inside [n], at any depth, in document order:
    child by child from left to right, a marked child before the marked
    elements inside it. *)
Fixpoint elements_inside (name cls : string) (n : node) : list node :=
  match n with
  | NavigableString _ => []
  | Tag _ _ _ cs =>
      flat_map (fun c => ((if marked name cls c then [c] else [])
                            ++ elements_inside name cls c)%list) cs
  end.

(** The strings of a node in document order: a string is its own text,
    a tag has the strings of its children, from left to right. *)
Fixpoint strings_of (n : node) : list string :=
  match n with
  | NavigableString s => [s]
  | Tag _ _ _ cs => flat_map strings_of cs
  end.

(** The text content of a node: its strings put together. *)
Definition text_content (n : node) : string :=
  String.concat "" (strings_of n).

(** The text content trimmed at both ends. *)
Definition trimmed_text_content (n : node) : string :=
  PyStr.strip (text_content n).

(** The strings of a node, each trimmed at both ends, those that trim to
    nothing left out, the rest put together with nothing in between. *)
Definition trimmed_strings_joined (n : node) : string :=
  String.concat ""
    (filter (fun t => negb (String.eqb t ""))
            (map PyStr.strip (strings_of n))).

End OpinionSpec.

(* ================================================================= *)
(** ** The text pipeline ([main.py])

    The functions of [main.py] that compute on strings and lists.  Three
    things come from outside and are left open: [lower] is [str.lower];
    [nlp] is the spaCy pipeline, which maps a text to its tokens or fails
    (a text longer than [nlp.max_length]); [stop_words] answers the
    membership test [x in stop_words]. *)

Module PyText.

(** [string.punctuation], 32 characters; the second one is the double
    quote. *)
Definition punctuation : string :=
  "!" ++ String (ascii_of_nat 34) "#$%&'()*+,-./:;<=>?@[\]^_`{|}~".

(** The generator expression [c for c in s if f(c)], joined by the empty
    string. *)
Fixpoint keep (f : ascii -> bool) (s : string) : string :=
  match s with
  | EmptyString => EmptyString
  | String c r => if f c then String c (keep f r) else keep f r
  end.

(** The characters of a string, as Python iterates over it. *)
Fixpoint chars (s : string) : list string :=
  match s with
  | EmptyString => []
  | String c r => String c EmptyString :: chars r
  end.

Definition newline : string := String (ascii_of_nat 10) EmptyString.

End PyText.

Module Pipeline.

(** What the pipeline reads of a spaCy token. *)
Record token : Type := { text : string; lemma_ : string }.

(** The files under [results/]: a path has a content or does not exist. *)
Definition files : Type := string -> option string.

Definition write (fs : files) (file_path content : string) : files :=
  fun p => if String.eqb p file_path then Some content else fs p.

(** [write_tokens_to_file]: every token is joined from its characters,
    and the tokens are joined by newlines. *)
Definition write_tokens_to_file (file_path : string) (tokens : list string)
           (fs : files) : files :=
  write fs file_path
    (PyStr.join PyText.newline
       (map (fun token => PyStr.join "" (PyText.chars token)) tokens)).

Section WithPython.

Variable lower : string -> string.
Variable nlp : string -> option (list token).
Variable stop_words : string -> bool.

(** The inner loop of [create_corpus]; [corpus] is the list built so far. *)
Fixpoint for_opinions (ops : list string) (corpus : list string)
  : list string :=
  match ops with
  | [] => corpus
  | opinion :: rest =>
      let opinion_without_punctuation :=
        PyText.keep (fun char => negb (PyStr.contains char PyText.punctuation))
                    opinion in
      let lowercase_opinion := lower opinion_without_punctuation in
      for_opinions rest (corpus ++ [lowercase_opinion])
  end.

(** The outer loop of [create_corpus]. *)
Fixpoint for_items (data : list entry) (corpus : list string) : list string :=
  match data with
  | [] => corpus
  | item :: rest => for_items rest (for_opinions (opinions item) corpus)
  end.

Definition create_corpus (data : list entry) : list string :=
  for_items data [].

(** The loop of [tokenize]; [tokens] is the list built so far. *)
Fixpoint for_texts (corpus : list string) (tokens : list string)
  : option (list string) :=
  match corpus with
  | [] => Some tokens
  | t :: rest =>
      match nlp t with
      | None => None
      | Some doc => for_texts rest (tokens ++ map text doc)
      end
  end.

Definition tokenize (corpus : list string) : option (list string) :=
  for_texts corpus [].

Definition remove_stop_words (tokens : list string) : list string :=
  filter (fun token => negb (stop_words (lower token))) tokens.

Definition lemmatize (tokens : list string) : option (list string) :=
  match nlp (PyStr.join " " tokens) with
  | None => None
  | Some doc => Some (map lemma_ doc)
  end.

(** The line one opinion becomes: its punctuation taken out, the rest
    put in lower case. *)
Definition clean (opinion : string) : string :=
  lower
    (PyText.keep (fun char => negb (PyStr.contains char PyText.punctuation))
                 opinion).

End WithPython.

(** A small stop-word set, and a spaCy stand-in that cuts at spaces and
    refuses the empty text, for trying the functions out. *)
Definition few_stop_words (w : string) : bool :=
  existsb (String.eqb w) ["i"; "w"; "nie"].
Definition cut_at_spaces (t : string) : option (list token) :=
  match t with
  | EmptyString => None
  | _ => Some (map (fun w => {| text := w; lemma_ := w |}) (PyStr.split " " t))
  end.

End Pipeline.

(** The state a computation ends in, when it ends. *)
Definition final {World A : Type} (r : outcome World A)
  : option (state World) :=
  match r with
  | Returned _ s => Some s
  | Raised _ s => Some s
  | OutOfFuel => None
  end.

(** The URL begins with the root of the site. *)
Definition on_site (url : string) : Prop :=
  String.prefix "https://www.wakacje.pl" url = true.

(** A non-empty string that neither [lstrip] nor [rstrip] shortens. *)
Definition stripped (s : string) : Prop :=
  s <> "" /\ PyStr.lstrip s = s /\ PyStr.rstrip s = s.

(* ================================================================= *)
(** ** Facts about the string operations *)

Section StringFacts.

Variable c : ascii.

Lemma append_assoc (a b d : string) : (a ++ b) ++ d = a ++ b ++ d.
Proof. induction a as [|x a IH]; simpl; [reflexivity | now rewrite IH]. Qed.

Lemma contains_append (a b : string) :
  PyStr.contains c (a ++ b) = PyStr.contains c a || PyStr.contains c b.
Proof.
  induction a as [|x a IH]; simpl; [reflexivity|].
  now rewrite IH, orb_assoc.
Qed.

Lemma rfind_absent (s : string) :
  PyStr.contains c s = false -> PyStr.rfind c s = (-1)%Z.
Proof.
  induction s as [|x s IH]; simpl; intros H; [reflexivity|].
  apply orb_false_iff in H as [Hx Hs].
  rewrite (IH Hs), Hx. reflexivity.
Qed.

(** The last occurrence: nothing equal to [c] after it. *)
Lemma rfind_last (a b : string) :
  PyStr.contains c b = false ->
  PyStr.rfind c (a ++ String c b) = Z.of_nat (String.length a).
Proof.
  intros Hb. induction a as [|x a IH].
  - simpl. rewrite (rfind_absent b Hb), Ascii.eqb_refl. reflexivity.
  - change (String x a ++ String c b) with (String x (a ++ String c b)).
    cbn [PyStr.rfind]. rewrite IH.
    replace (0 <=? Z.of_nat (String.length a))%Z with true
      by (symmetry; apply Z.leb_le; lia).
    cbn [String.length]. lia.
Qed.

(** A string that contains [c] splits at its last occurrence. *)
Lemma contains_last (s : string) :
  PyStr.contains c s = true ->
  exists a b, s = a ++ String c b /\ PyStr.contains c b = false.
Proof.
  induction s as [|x s IH]; simpl; intros H; [discriminate|].
  destruct (PyStr.contains c s) eqn:Hs.
  - destruct (IH eq_refl) as (a & b & -> & Hb).
    exists (String x a), b. split; [reflexivity | exact Hb].
  - rewrite orb_false_r in H. apply Ascii.eqb_eq in H. subst x.
    exists EmptyString, s. split; [reflexivity | exact Hs].
Qed.

Lemma take_append (a b : string) (n : nat) :
  PyStr.take (String.length a + n) (a ++ b) = a ++ PyStr.take n b.
Proof. induction a as [|x a IH]; simpl; [reflexivity | now rewrite IH]. Qed.

Lemma drop_append (a b : string) (n : nat) :
  PyStr.drop (String.length a + n) (a ++ b) = PyStr.drop n b.
Proof. induction a as [|x a IH]; simpl; [reflexivity | exact IH]. Qed.

Lemma length_append (a b : string) :
  String.length (a ++ b) = String.length a + String.length b.
Proof. induction a as [|x a IH]; simpl; [reflexivity | now rewrite IH]. Qed.

Lemma bound_inside (s : string) (n : nat) :
  n <= String.length s -> PyStr.bound s (Z.of_nat n) = n.
Proof.
  intros H. unfold PyStr.bound.
  replace (Z.of_nat n <? 0)%Z with false by (symmetry; apply Z.ltb_ge; lia).
  rewrite Z.min_l by lia. apply Nat2Z.id.
Qed.

(** Python's [url[:i+1] + "h" + url[i+1:]] with [i = url.rfind(c)], when
    [c] occurs in [url]: the "h" lands right after the last [c]. *)
Lemma insert_after_last (a b : string) :
  PyStr.contains c b = false ->
  let url := a ++ String c b in
  let i := PyStr.rfind c url in
  PyStr.slice_to url (i + 1) ++ "h" ++ PyStr.slice_from url (i + 1)
  = a ++ String c ("h" ++ b).
Proof.
  intros Hb url i. unfold i, url, PyStr.slice_to, PyStr.slice_from.
  rewrite (rfind_last a b Hb).
  replace (Z.of_nat (String.length a) + 1)%Z
    with (Z.of_nat (String.length a + 1)) by lia.
  rewrite bound_inside
    by (rewrite length_append; cbn [String.length]; lia).
  rewrite take_append, drop_append. simpl.
  rewrite append_assoc. reflexivity.
Qed.

(** The same expression when [c] does not occur: [rfind] gives [-1], both
    slices are cut at [0], and the "h" lands in front. *)
Lemma insert_when_absent (url : string) :
  PyStr.contains c url = false ->
  let i := PyStr.rfind c url in
  PyStr.slice_to url (i + 1) ++ "h" ++ PyStr.slice_from url (i + 1)
  = "h" ++ url.
Proof.
  intros H i. unfold i. rewrite (rfind_absent url H).
  unfold PyStr.slice_to, PyStr.slice_from.
  change (-1 + 1)%Z with (Z.of_nat 0).
  rewrite bound_inside by lia.
  destruct url; reflexivity.
Qed.

Lemma contains_split_parts (sep : ascii) (s : string) :
  PyStr.contains c s = false ->
  Forall (fun p => PyStr.contains c p = false) (PyStr.split sep s).
Proof.
  induction s as [|x s IH]; simpl; intros H.
  - constructor; [reflexivity | constructor].
  - apply orb_false_iff in H as [Hx Hs]. specialize (IH Hs).
    destruct (Ascii.eqb x sep).
    + constructor; [reflexivity | exact IH].
    + destruct (PyStr.split sep s) as [|p ps].
      * constructor; [simpl; now rewrite Hx | constructor].
      * inversion IH; subst. constructor; [simpl; now rewrite Hx | assumption].
Qed.

Lemma contains_join_parts (sep : string) (parts : list string) :
  PyStr.contains c sep = false ->
  Forall (fun p => PyStr.contains c p = false) parts ->
  PyStr.contains c (PyStr.join sep parts) = false.
Proof.
  intros Hsep. induction parts as [|p ps IH]; intros H; [reflexivity|].
  inversion H as [|? ? Hp Hps]; subst.
  destruct ps as [|q ps]; [exact Hp|].
  change (PyStr.join sep (p :: q :: ps))
    with (p ++ sep ++ PyStr.join sep (q :: ps)).
  rewrite !contains_append, Hp, Hsep, (IH Hps). reflexivity.
Qed.

Lemma Forall_skipn_parts {A} (P : A -> Prop) (n : nat) (l : list A) :
  Forall P l -> Forall P (skipn n l).
Proof.
  revert l. induction n as [|n IH]; intros l H; [exact H|].
  destruct l as [|x l]; [constructor|].
  inversion H; subst. simpl. now apply IH.
Qed.

End StringFacts.

(* ================================================================= *)
(** ** Facts about the document searches *)

Lemma matches_marked (name cls : string) (n : node) :
  Soup.matches name (Some cls) n = true <-> is_marked name cls n.
Proof.
  split.
  - destruct n as [t | nm classes h cs]; simpl; [discriminate|].
    intros H. apply andb_true_iff in H as [Hn Hc].
    apply String.eqb_eq in Hn. subst nm.
    apply existsb_exists in Hc as (x & Hin & Hx).
    apply String.eqb_eq in Hx. subst x.
    now exists classes, h, cs.
  - intros (classes & h & cs & -> & Hin). simpl.
    rewrite String.eqb_refl. simpl.
    apply existsb_exists. exists cls. split; [exact Hin | apply String.eqb_refl].
Qed.

Lemma find_lacking (name cls : string) (soup : node) :
  lacks_marker name cls soup -> Soup.find name (Some cls) soup = None.
Proof.
  intros H. unfold Soup.find, Soup.find_all.
  replace (filter (Soup.matches name (Some cls)) (Soup.descendants soup))
    with (@nil node); [reflexivity|].
  symmetry. unfold lacks_marker in H.
  induction (Soup.descendants soup) as [|n ns IH]; [reflexivity|].
  simpl. destruct (Soup.matches name (Some cls) n) eqn:E.
  - exfalso. apply (H n); [now left | now apply matches_marked].
  - apply IH. intros m Hm. apply H. now right.
Qed.

Lemma find_first (name cls : string) (soup c : node) (pre post : list node) :
  Soup.descendants soup = (pre ++ c :: post)%list ->
  (forall n, In n pre -> ~ is_marked name cls n) ->
  is_marked name cls c ->
  Soup.find name (Some cls) soup = Some c.
Proof.
  intros Hd Hpre Hc. unfold Soup.find, Soup.find_all. rewrite Hd.
  clear Hd. induction pre as [|n pre IH]; simpl.
  - apply matches_marked in Hc. rewrite Hc. reflexivity.
  - destruct (Soup.matches name (Some cls) n) eqn:E.
    + exfalso. apply (Hpre n); [now left | now apply matches_marked].
    + apply IH. intros m Hm. apply Hpre. now right.
Qed.

(* ================================================================= *)
(** ** Facts about the link rewriting *)

Lemma prefix_has_no_dash : PyStr.contains "-" hotel_prefix = false.
Proof. reflexivity. Qed.

Lemma rewrite_href_dash (href : string) :
  PyStr.contains "-" (remainder href) = true ->
  exists a b,
    remainder href = a ++ "-" ++ b /\
    PyStr.contains "-" b = false /\
    rewrite_href href = hotel_prefix ++ a ++ "-" ++ "h" ++ b.
Proof.
  intros H. destruct (contains_last "-" _ H) as (a & b & Hr & Hb).
  exists a, b. split; [exact Hr | split; [exact Hb|]].
  unfold rewrite_href. fold (remainder href). rewrite Hr.
  change ("-" ++ b) with (String "-" b).
  rewrite <- (append_assoc hotel_prefix a (String "-" b)).
  etransitivity;
    [exact (insert_after_last "-" (hotel_prefix ++ a) b Hb)
    | apply append_assoc].
Qed.

Lemma rewrite_href_no_dash (href : string) :
  PyStr.contains "-" (remainder href) = false ->
  rewrite_href href = "h" ++ hotel_prefix ++ remainder href.
Proof.
  intros H. unfold rewrite_href. fold (remainder href).
  apply insert_when_absent.
  rewrite contains_append, prefix_has_no_dash, H. reflexivity.
Qed.

Lemma remainder_no_dash (href : string) :
  PyStr.contains "-" href = false ->
  PyStr.contains "-" (remainder href) = false.
Proof.
  intros H. unfold remainder.
  apply contains_join_parts; [reflexivity|].
  apply Forall_skipn_parts, contains_split_parts, H.
Qed.

Lemma remainder_short (href : string) :
  List.length (PyStr.split "/" href) <= 3 -> remainder href = "".
Proof.
  intros H. unfold remainder. rewrite skipn_all2 by exact H. reflexivity.
Qed.

Lemma for_offer_links_hrefs (links : list node) (hrefs urls : list string) :
  hrefs_of links hrefs ->
  for_offer_links links urls = Ok (urls ++ map rewrite_href hrefs)%list.
Proof.
  unfold hrefs_of. revert hrefs urls.
  induction links as [|l links IH]; intros [|h hrefs] urls H;
    try discriminate.
  - simpl. now rewrite app_nil_r.
  - simpl in H. injection H as Hl Hrest.
    cbn [for_offer_links]. rewrite Hl, (IH hrefs _ Hrest).
    now rewrite <- app_assoc.
Qed.

Lemma parse_hotel_links_hrefs (soup carousel : node) (hrefs : list string) :
  Soup.find "div" (Some "swiper-wrapper") soup = Some carousel ->
  hrefs_of (Soup.find_all "a" None carousel) hrefs ->
  parse_hotel_links soup = Ok (map rewrite_href hrefs).
Proof.
  intros Hc Hh. unfold parse_hotel_links. rewrite Hc.
  now rewrite (for_offer_links_hrefs _ hrefs [] Hh).
Qed.

Lemma lacks_marker_check (name cls : string) (soup : node) :
  forallb (fun n => negb (Soup.matches name (Some cls) n))
          (Soup.descendants soup) = true ->
  lacks_marker name cls soup.
Proof.
  intros H n Hin Hm. apply matches_marked in Hm.
  rewrite forallb_forall in H. specialize (H n Hin).
  rewrite Hm in H. discriminate.
Qed.

(* ================================================================= *)
(** ** The link extractor *)




(** C7: a catalog document without the carousel marker yields the empty
    list of links, as a normal result and not as an error. *)
Theorem parse_hotel_links_no_carousel (soup : node) :
  lacks_marker "div" "swiper-wrapper" soup ->
  parse_hotel_links soup = Ok [].
Proof.
  intros H. unfold parse_hotel_links.
  now rewrite (find_lacking _ _ _ H).
Qed.

Lemma parse_hotel_links_no_carousel_witness :
  parse_hotel_links Synthetic.grand_reviews = Ok [].
Proof.
  apply parse_hotel_links_no_carousel.
  apply lacks_marker_check. reflexivity.
Defined.

(** C8 (amended): a carousel href with fewer than three segments, or with
    no '-', is not skipped.  When every anchor of the carousel carries an
    href, [parse_hotel_links] returns normally with one URL per anchor, and
    the URL made from such an href is "h" followed by the fixed prefix and
    the rejoined part after the first three segments (nothing, when there
    are fewer than three segments). *)
Theorem malformed_href_not_skipped
        (soup carousel : node) (hrefs : list string) (i : nat) (href : string) :
  Soup.find "div" (Some "swiper-wrapper") soup = Some carousel ->
  hrefs_of (Soup.find_all "a" None carousel) hrefs ->
  nth_error hrefs i = Some href ->
  List.length (PyStr.split "/" href) < 3 \/ PyStr.contains "-" href = false ->
  exists urls,
    parse_hotel_links soup = Ok urls /\
    List.length urls = List.length (Soup.find_all "a" None carousel) /\
    nth_error urls i = Some ("h" ++ hotel_prefix ++ remainder href) /\
    (List.length (PyStr.split "/" href) < 3 -> remainder href = "").
Proof.
  intros Hc Hh Hi Hshape.
  exists (map rewrite_href hrefs).
  split; [exact (parse_hotel_links_hrefs soup carousel hrefs Hc Hh)|].
  split.
  { rewrite length_map. unfold hrefs_of in Hh.
    rewrite <- (length_map Some hrefs), <- Hh. apply length_map. }
  split.
  - rewrite <- rewrite_href_no_dash; [apply map_nth_error, Hi|].
    destruct Hshape as [Hshort | Hnodash].
    + rewrite remainder_short by lia. reflexivity.
    + apply remainder_no_dash, Hnodash.
  - intros Hshort. apply remainder_short. lia.
Qed.

Lemma malformed_href_not_skipped_witness :
  exists urls,
    parse_hotel_links (Synthetic.catalog ["/pl/offer/grandhotel"]) = Ok urls /\
    nth_error urls 0
    = Some "hhttps://www.wakacje.pl/opinie/hotele/grandhotel".
Proof.
  destruct (malformed_href_not_skipped
              (Synthetic.catalog ["/pl/offer/grandhotel"])
              (Tag "div" ["swiper-wrapper"] None
                   [Synthetic.anchor "/pl/offer/grandhotel"])
              ["/pl/offer/grandhotel"] 0 "/pl/offer/grandhotel"
              eq_refl eq_refl eq_refl (or_intror eq_refl))
    as (urls & Hp & _ & Hn & _).
  exists urls. split; [exact Hp | rewrite Hn; reflexivity].
Defined.

(** C8 as stated fails: the href "/pl" has two segments and no '-', and a
    URL is produced from it all the same. *)
Lemma short_href_yields_url :
  List.length (PyStr.split "/" "/pl") < 3 /\
  PyStr.contains "-" "/pl" = false /\
  parse_hotel_links (Synthetic.catalog ["/pl"])
  = Ok ["hhttps://www.wakacje.pl/opinie/hotele/"].
Proof. repeat split. vm_compute. lia. Qed.



(* ================================================================= *)
(** ** The opinion extractor *)

(** Induction on the tree, with the statement at hand for every child. *)
Lemma node_induction (P : node -> Prop) :
  (forall s, P (NavigableString s)) ->
  (forall name cl h cs, Forall P cs -> P (Tag name cl h cs)) ->
  forall n, P n.
Proof.
  intros Hs Ht. fix IH 1. intros [s | name cl h cs].
  - apply Hs.
  - apply Ht. induction cs as [|c cs IHcs]; constructor;
      [apply IH | exact IHcs].
Qed.

Lemma marked_matches (name cls : string) (n : node) :
  OpinionSpec.marked name cls n = Soup.matches name (Some cls) n.
Proof. destruct n; reflexivity. Qed.

Lemma marked_is_marked (name cls : string) (n : node) :
  OpinionSpec.marked name cls n = true <-> is_marked name cls n.
Proof. rewrite marked_matches. apply matches_marked. Qed.

Lemma filter_flat_map {A B} (f : B -> bool) (g : A -> list B) (l : list A) :
  filter f (flat_map g l) = flat_map (fun x => filter f (g x)) l.
Proof.
  induction l as [|x l IH]; [reflexivity|].
  simpl. now rewrite filter_app, IH.
Qed.

Lemma flat_map_agree {A B} (f g : A -> list B) (l : list A) :
  Forall (fun x => f x = g x) l -> flat_map f l = flat_map g l.
Proof.
  induction 1 as [|x l Hx _ IH]; [reflexivity|].
  simpl. now rewrite Hx, IH.
Qed.

(** [find_all] finds the marked elements inside a node, at any depth and
    in document order. *)
Lemma find_all_elements (name cls : string) (n : node) :
  Soup.find_all name (Some cls) n = OpinionSpec.elements_inside name cls n.
Proof.
  induction n as [s | nm cl h cs IH] using node_induction; [reflexivity|].
  unfold Soup.find_all. cbn [Soup.descendants OpinionSpec.elements_inside].
  rewrite filter_flat_map. apply flat_map_agree.
  apply Forall_forall. intros c Hc.
  rewrite Forall_forall in IH. specialize (IH c Hc).
  unfold Soup.find_all in IH. cbn [filter].
  rewrite <- IH, marked_matches.
  now destruct (Soup.matches name (Some cls) c).
Qed.

Lemma elements_inside_below (name cls : string) (n : node) :
  forall e,
    In e (OpinionSpec.elements_inside name cls n) <->
    OpinionSpec.below n e /\ is_marked name cls e.
Proof.
  induction n as [s | nm cl h cs IH] using node_induction; intros e.
  - split; [intros [] | intros [H _]; inversion H].
  - rewrite Forall_forall in IH.
    cbn [OpinionSpec.elements_inside]. rewrite in_flat_map. split.
    + intros (c & Hc & Hin). apply in_app_iff in Hin as [Hin | Hin].
      * destruct (OpinionSpec.marked name cls c) eqn:E; [|destruct Hin].
        destruct Hin as [<- | []].
        split; [now apply OpinionSpec.below_child | now apply marked_is_marked].
      * apply (IH c Hc) in Hin as [Hb Hm].
        split; [now apply OpinionSpec.below_deeper with c | exact Hm].
    + intros [Hb Hm]. inversion Hb as [? ? ? ? c Hc | ? ? ? ? c d Hc Hd]; subst.
      * exists e. split; [exact Hc|]. apply in_app_iff. left.
        apply marked_is_marked in Hm. rewrite Hm. now left.
      * exists c. split; [exact Hc|]. apply in_app_iff. right.
        apply (IH c Hc). now split.
Qed.

Lemma stripped_strings_app (a b : list node) :
  Soup.stripped_strings (a ++ b)
  = (Soup.stripped_strings a ++ Soup.stripped_strings b)%list.
Proof.
  induction a as [|n a IH]; [reflexivity|].
  destruct n as [t | nm cl h cs]; cbn [app Soup.stripped_strings]; [|exact IH].
  destruct (PyStr.strip t); [exact IH | now rewrite IH].
Qed.

(** The strings [get_text(strip=True)] joins are the strings of the node,
    each stripped, the empty ones left out. *)
Lemma stripped_strings_of (n : node) :
  Soup.stripped_strings (n :: Soup.descendants n)
  = filter (fun t => negb (String.eqb t ""))
           (map PyStr.strip (OpinionSpec.strings_of n)).
Proof.
  induction n as [s | nm cl h cs IH] using node_induction.
  - simpl. now destruct (PyStr.strip s).
  - cbn [Soup.stripped_strings Soup.descendants OpinionSpec.strings_of].
    induction IH as [|c cs Hc _ IHcs]; [reflexivity|].
    cbn [flat_map].
    rewrite stripped_strings_app, map_app, filter_app, <- Hc, <- IHcs.
    reflexivity.
Qed.

Lemma join_concat (pieces : list string) :
  PyStr.join "" pieces = String.concat "" pieces.
Proof.
  induction pieces as [|p ps IH]; [reflexivity|].
  destruct ps as [|q ps]; [reflexivity|].
  change (PyStr.join "" (p :: q :: ps)) with (p ++ "" ++ PyStr.join "" (q :: ps)).
  rewrite IH. reflexivity.
Qed.

Lemma get_text_strip_tag (name : string) (cl : list string)
      (h : option string) (cs : list node) :
  Soup.get_text_strip (Tag name cl h cs)
  = OpinionSpec.trimmed_strings_joined (Tag name cl h cs).
Proof.
  unfold Soup.get_text_strip, OpinionSpec.trimmed_strings_joined.
  rewrite join_concat, <- stripped_strings_of. reflexivity.
Qed.

Lemma no_elements_below (name cls : string) (n : node) :
  OpinionSpec.elements_inside name cls n = [] ->
  forall e, OpinionSpec.below n e -> ~ is_marked name cls e.
Proof.
  intros H e Hb Hm.
  assert (Hin : In e (OpinionSpec.elements_inside name cls n))
    by (apply elements_inside_below; now split).
  rewrite H in Hin. destruct Hin.
Qed.

(** C6 (amended): [extract_opinions] is a total function of the document.
    When no opinions-list container lies below the document it returns
    the empty list.  Otherwise, with [container] the first such container
    in document order, it returns, for every opinion paragraph inside
    [container] at any depth and in document order, the strings of the
    paragraph, each trimmed at both ends, those that trim to nothing left
    out, joined with nothing in between.  One of the two cases always
    holds; the elements inside a node are exactly the marked nodes below
    it; and for a paragraph with a single string the joined text is its
    trimmed text content. *)
Theorem extract_opinions_spec (soup : node) :
  ((forall e, OpinionSpec.below soup e ->
              ~ is_marked "div" "opinions__list" e) ->
   extract_opinions soup = []) /\
  (forall container,
      hd_error (OpinionSpec.elements_inside "div" "opinions__list" soup)
      = Some container ->
      extract_opinions soup
      = map OpinionSpec.trimmed_strings_joined
            (OpinionSpec.elements_inside
               "p" "opinion__attributes-content" container)) /\
  ((forall e, OpinionSpec.below soup e ->
              ~ is_marked "div" "opinions__list" e) \/
   exists container,
     hd_error (OpinionSpec.elements_inside "div" "opinions__list" soup)
     = Some container) /\
  (forall name cls n e,
      In e (OpinionSpec.elements_inside name cls n) <->
      OpinionSpec.below n e /\ is_marked name cls e) /\
  (forall e t,
      OpinionSpec.strings_of e = [t] ->
      OpinionSpec.trimmed_strings_joined e = OpinionSpec.trimmed_text_content e).
Proof.
  split; [|split; [|split; [|split]]].
  - intros H. unfold extract_opinions, Soup.find.
    rewrite find_all_elements.
    destruct (OpinionSpec.elements_inside "div" "opinions__list" soup)
      as [|c l] eqn:E; [reflexivity|].
    exfalso.
    assert (Hin : In c (OpinionSpec.elements_inside "div" "opinions__list" soup))
      by (rewrite E; now left).
    apply elements_inside_below in Hin as [Hb Hm]. exact (H c Hb Hm).
  - intros container Hc. unfold extract_opinions, Soup.find.
    rewrite find_all_elements, Hc, find_all_elements.
    apply map_ext_in. intros e He.
    apply elements_inside_below in He as [_ (cl & h & cs & -> & _)].
    apply get_text_strip_tag.
  - destruct (OpinionSpec.elements_inside "div" "opinions__list" soup)
      as [|c l] eqn:E.
    + left. now apply no_elements_below.
    + right. now exists c.
  - intros name cls n e. apply elements_inside_below.
  - intros e t Ht.
    unfold OpinionSpec.trimmed_strings_joined,
      OpinionSpec.trimmed_text_content, OpinionSpec.text_content.
    rewrite Ht. simpl. now destruct (PyStr.strip t).
Qed.

Lemma extract_opinions_spec_witness :
  extract_opinions Synthetic.grand_catalog = [] /\
  extract_opinions
    (Synthetic.review_page ["  Great stay "; "Would return"] None)
  = ["Great stay"; "Would return"].
Proof.
  split.
  - apply (proj1 (extract_opinions_spec Synthetic.grand_catalog)).
    apply no_elements_below. reflexivity.
  - rewrite (proj1 (proj2 (extract_opinions_spec
                (Synthetic.review_page ["  Great stay "; "Would return"] None)))
               (Tag "div" ["opinions__list"] None
                    (map Synthetic.opinion ["  Great stay "; "Would return"]))
               eq_refl).
    reflexivity.
Defined.

(** C6 as stated fails: for the paragraph
    [<p class="opinion__attributes-content"> Great <b>stay</b> </p>] the
    trimmed text content is "Great stay", and [extract_opinions] returns
    "Greatstay". *)
Lemma nested_markup_not_trimmed_text :
  extract_opinions Broken.nested_opinion_page = ["Greatstay"] /\
  OpinionSpec.elements_inside "p" "opinion__attributes-content"
    Broken.nested_opinion_page
  = [Broken.nested_opinion] /\
  OpinionSpec.trimmed_text_content Broken.nested_opinion = "Great stay" /\
  extract_opinions Broken.nested_opinion_page
  <> map OpinionSpec.trimmed_text_content
         (OpinionSpec.elements_inside "p" "opinion__attributes-content"
            Broken.nested_opinion_page).
Proof.
  split; [reflexivity|]. split; [reflexivity|]. split; [reflexivity|].
  vm_compute. discriminate.
Qed.

(* ================================================================= *)
(** ** The pagination walk *)

Section WalkFacts.

Context {World : Type}.
Variable http_get : World -> string -> option node * World.

Local Abbreviation state := (state World).
Local Abbreviation next_marker := (Some "pagination__item--next").

Lemma fetch_page_eq (u : string) (s : state) (r : option node) (w : World) :
  http_get (world s) u = (r, w) ->
  fetch_page http_get u s = Returned r (after_fetch s u w).
Proof. intros H. unfold fetch_page. now rewrite H. Qed.

Lemma next_page_url_some (p : node) (u : string) :
  next_page_url p = Some u ->
  exists li a,
    Soup.find "li" next_marker p = Some li /\
    Soup.find "a" None li = Some a /\
    u = "https://www.wakacje.pl" ++ PyStr.str (Soup.get_href a).
Proof.
  unfold next_page_url.
  destruct (Soup.find "li" next_marker p) as [li|]; [|discriminate].
  destruct (Soup.find "a" None li) as [a|] eqn:Ha; [|discriminate].
  intros H. injection H as H. exists li, a. now rewrite <- H.
Qed.

Lemma while_next_page_done (fuel : nat) (acc : list string) (s : state) :
  while_next_page http_get fuel acc None s = Returned acc s.
Proof. destruct fuel; reflexivity. Qed.

(** One turn of the loop, when the page before had a next-page link. *)
Lemma while_next_page_step (fuel : nat) (acc : list string) (p0 : node)
      (u : string) (s : state) (r : option node) (w : World) :
  next_page_url p0 = Some u ->
  http_get (world s) u = (r, w) ->
  while_next_page http_get (S fuel) acc (Soup.find "li" next_marker p0) s
  = match r with
    | Some p =>
        while_next_page http_get fuel (acc ++ extract_opinions p)
                        (Soup.find "li" next_marker p) (after_fetch s u w)
    | None => Returned acc (after_fetch s u w)
    end.
Proof.
  intros Hn Hg.
  destruct (next_page_url_some p0 u Hn) as (li & a & Hli & Ha & ->).
  rewrite Hli. cbn [while_next_page]. rewrite Ha.
  unfold bind at 1. unfold ret at 1. unfold bind at 1.
  rewrite (fetch_page_eq _ s r w Hg).
  destruct r; reflexivity.
Qed.

(** The loop over a chain of served pages, ended either by a failing
    fetch ([final = None]) or by a page without next-page control. *)
Lemma while_next_page_served (pages : list node) :
  forall (p0 : node) (u : string) (us : list string) (w' : World)
         (u' : string) (final : option node) (w'' : World) (fuel : nat)
         (acc : list string) (s : state),
    next_page_url p0 = Some u ->
    served http_get (world s) u pages us w' u' ->
    http_get w' u' = (final, w'') ->
    (forall p, final = Some p -> Soup.find "li" next_marker p = None) ->
    List.length pages < fuel ->
    while_next_page http_get fuel acc (Soup.find "li" next_marker p0) s
    = Returned
        (acc ++ flat_map extract_opinions pages
             ++ match final with
                | Some p => extract_opinions p
                | None => []
                end)%list
        {| world := w'';
           requested := requested s ++ us ++ [u'];
           opinions_json := opinions_json s |}.
Proof.
  induction pages as [|p rest IH];
    intros p0 u us w' u' final w'' fuel acc s Hn Hs Hg Hlast Hfuel.
  - destruct Hs as (-> & -> & ->).
    destruct fuel as [|fuel]; [simpl in Hfuel; lia|].
    rewrite (while_next_page_step fuel acc p0 u s final w'' Hn Hg).
    destruct final as [p|]; simpl.
    + rewrite (Hlast p eq_refl), while_next_page_done. reflexivity.
    + rewrite app_nil_r. reflexivity.
  - destruct Hs as (w1 & u1 & us1 & Hg1 & Hn1 & -> & Hrest).
    destruct fuel as [|fuel]; [simpl in Hfuel; lia|].
    rewrite (while_next_page_step fuel acc p0 u s (Some p) w1 Hn Hg1).
    rewrite (IH p u1 us1 w' u' final w'' fuel _ (after_fetch s u w1)
                Hn1 Hrest Hg Hlast ltac:(simpl in Hfuel; lia)).
    simpl. rewrite <- !app_assoc. reflexivity.
Qed.

Lemma scrape_served (p : node) (pages : list node) (u : string)
      (us : list string) (w' : World) (u' : string) (final : option node)
      (w'' : World) (fuel : nat) (s : state) :
  served http_get (world s) u (p :: pages) us w' u' ->
  http_get w' u' = (final, w'') ->
  (forall q, final = Some q -> Soup.find "li" next_marker q = None) ->
  List.length pages < fuel ->
  scrape_hotel_opinions http_get fuel u s
  = Returned
      (flat_map extract_opinions (p :: pages)
         ++ match final with
            | Some q => extract_opinions q
            | None => []
            end)%list
      {| world := w'';
         requested := requested s ++ us ++ [u'];
         opinions_json := opinions_json s |}.
Proof.
  intros (w1 & u1 & us1 & Hg1 & Hn1 & -> & Hrest) Hg Hlast Hfuel.
  unfold scrape_hotel_opinions, bind.
  rewrite (fetch_page_eq _ s _ _ Hg1).
  rewrite (while_next_page_served pages p u1 us1 w' u' final w'' fuel _
             (after_fetch s u w1) Hn1 Hrest Hg Hlast Hfuel).
  simpl. rewrite <- !app_assoc. reflexivity.
Qed.

Lemma scrape_first_fails (fuel : nat) (u : string) (s : state) (w : World) :
  http_get (world s) u = (None, w) ->
  scrape_hotel_opinions http_get fuel u s = Returned [] (after_fetch s u w).
Proof.
  intros H. unfold scrape_hotel_opinions, bind.
  now rewrite (fetch_page_eq _ s _ _ H).
Qed.

(** C2: on a hotel whose three review pages are linked 1 -> 2 -> 3, the
    third one without next-page control, the walk returns the opinions
    of the three pages in page order after exactly three requests: the
    start URL, then the next-page link of page 1, then that of page 2. *)
Theorem three_page_walk
        (fuel : nat) (s : state) (u1 u2 u3 : string) (p1 p2 p3 : node)
        (w1 w2 w3 : World) :
  2 <= fuel ->
  http_get (world s) u1 = (Some p1, w1) ->
  next_page_url p1 = Some u2 ->
  http_get w1 u2 = (Some p2, w2) ->
  next_page_url p2 = Some u3 ->
  http_get w2 u3 = (Some p3, w3) ->
  Soup.find "li" next_marker p3 = None ->
  exists s',
    scrape_hotel_opinions http_get fuel u1 s
    = Returned (extract_opinions p1 ++ extract_opinions p2
                  ++ extract_opinions p3)%list s' /\
    requested s' = (requested s ++ [u1; u2; u3])%list /\
    List.length (requested s') = List.length (requested s) + 3 /\
    world s' = w3.
Proof.
  intros Hfuel H1 N1 H2 N2 H3 N3.
  eexists. split.
  - rewrite (scrape_served p1 [p2] u1 [u1; u2] w2 u3 (Some p3) w3 fuel s).
    + simpl. rewrite app_nil_r, <- app_assoc. reflexivity.
    + exists w1, u2, [u2]. repeat split; try assumption.
      exists w2, u3, []. repeat split; assumption.
    + exact H3.
    + intros q Hq. injection Hq as <-. exact N3.
    + simpl. lia.
  - simpl. split; [reflexivity|]. split; [|reflexivity].
    rewrite length_app. reflexivity.
Qed.

(** C3: when the pages [pages] (at least one) have been fetched one
    after the other and the next fetch fails, the walk returns normally,
    with exactly the opinions of [pages] in page order. *)
Theorem failed_fetch_keeps_opinions
        (fuel : nat) (s : state) (u : string) (pages : list node)
        (us : list string) (w' : World) (u' : string) (w'' : World) :
  pages <> [] ->
  served http_get (world s) u pages us w' u' ->
  http_get w' u' = (None, w'') ->
  List.length pages <= fuel ->
  scrape_hotel_opinions http_get fuel u s
  = Returned (flat_map extract_opinions pages)
      {| world := w'';
         requested := requested s ++ us ++ [u'];
         opinions_json := opinions_json s |}.
Proof.
  intros Hne Hs Hg Hfuel.
  destruct pages as [|p rest]; [contradiction|].
  rewrite (scrape_served p rest u us w' u' None w'' fuel s Hs Hg).
  - now rewrite app_nil_r.
  - discriminate.
  - simpl in Hfuel. lia.
Qed.

End WalkFacts.

(* ================================================================= *)
(** ** The crawl *)

Section CrawlFacts.

Context {World : Type}.
Variable http_get : World -> string -> option node * World.

Local Abbreviation state := (state World).

(** The loop over the hotels only ever appends to [data], one entry per
    URL, in the order of the URLs. *)
Lemma for_hotel_urls_entries (fuel : nat) (urls : list string) :
  forall (data : list entry) (s : state) (r : list entry) (s' : state),
    for_hotel_urls http_get fuel urls data s = Returned r s' ->
    exists res, r = (data ++ res)%list /\ map hotel_url res = urls.
Proof.
  induction urls as [|u urls IH]; intros data s r s' H.
  - injection H as <- _. exists []. now rewrite app_nil_r.
  - cbn [for_hotel_urls] in H. unfold bind in H.
    destruct (scrape_hotel_opinions http_get fuel u s) as [ops s1| |];
      try discriminate.
    destruct (IH _ _ _ _ H) as (res & -> & Hres).
    exists ({| hotel_url := u; opinions := ops |} :: res).
    rewrite <- app_assoc. simpl. now rewrite Hres.
Qed.

(** The loop over the hotels returns exactly when every walk of the run
    returns. *)
Lemma for_hotel_urls_returns (fuel : nat) (urls : list string) :
  forall (data : list entry) (s : state),
    run_walks_return http_get fuel urls s ->
    exists r s', for_hotel_urls http_get fuel urls data s = Returned r s'.
Proof.
  induction urls as [|u urls IH]; intros data s Hw.
  - now exists data, s.
  - destruct Hw as (ops & s1 & Hu & Hrest).
    cbn [for_hotel_urls]. unfold bind. rewrite Hu. now apply IH.
Qed.

Lemma for_hotel_urls_returned (fuel : nat) (urls : list string) :
  forall (data : list entry) (s : state) (r : list entry) (s' : state),
    for_hotel_urls http_get fuel urls data s = Returned r s' ->
    run_walks_return http_get fuel urls s.
Proof.
  induction urls as [|u urls IH]; intros data s r s' H; [exact I|].
  cbn [for_hotel_urls] in H. unfold bind in H.
  destruct (scrape_hotel_opinions http_get fuel u s) as [ops s1| |] eqn:E;
    try discriminate.
  exists ops, s1. split; [exact E | exact (IH _ _ _ _ H)].
Qed.

Lemma for_hotel_urls_app (fuel : nat) (pre post : list string) :
  forall (data : list entry) (s : state),
    for_hotel_urls http_get fuel (pre ++ post) data s
    = bind (for_hotel_urls http_get fuel pre data)
           (for_hotel_urls http_get fuel post) s.
Proof.
  induction pre as [|u pre IH]; intros data s; [reflexivity|].
  cbn [for_hotel_urls app]. unfold bind.
  destruct (scrape_hotel_opinions http_get fuel u s) as [ops s1| |];
    try reflexivity.
  rewrite IH. reflexivity.
Qed.

(** [main], once the catalog page is there and its links are parsed. *)
Lemma main_with_links (fuel : nat) (s : state) (soup : node) (w : World)
      (urls : list string) :
  http_get (world s) main_url = (Some soup, w) ->
  parse_hotel_links soup = Ok urls ->
  main http_get fuel s
  = bind (for_hotel_urls http_get fuel urls []) json_dump
         (after_fetch s main_url w).
Proof.
  intros Hg Hp. unfold main, bind.
  rewrite (fetch_page_eq http_get _ s _ _ Hg), Hp. reflexivity.
Qed.

(** A run of [main] that fetched the catalog and returned has extracted
    the links and has seen every walk of the run return. *)
Lemma main_returned (fuel : nat) (s s' : state) (soup : node) (w : World) :
  http_get (world s) main_url = (Some soup, w) ->
  main http_get fuel s = Returned tt s' ->
  exists urls,
    parse_hotel_links soup = Ok urls /\
    run_walks_return http_get fuel urls (after_fetch s main_url w).
Proof.
  intros Hg H. unfold main in H. unfold bind at 1 2 in H.
  rewrite (fetch_page_eq http_get _ s _ _ Hg) in H.
  destruct (parse_hotel_links soup) as [urls|e]; [|discriminate].
  exists urls. split; [reflexivity|].
  cbn [lift] in H. unfold bind, ret in H.
  destruct (for_hotel_urls http_get fuel urls [] (after_fetch s main_url w))
    as [data s1| |] eqn:E; try discriminate.
  exact (for_hotel_urls_returned _ _ _ _ _ _ E).
Qed.



Lemma grand_links :
  parse_hotel_links Synthetic.grand_catalog
  = Ok ["https://www.wakacje.pl/opinie/hotele/123-grand-hhotel"].
Proof. reflexivity. Qed.

(** The run of the end-to-end scenario, step by step. *)
Lemma grand_run (fuel : nat) (s : state) (w1 w2 : World) :
  http_get (world s) main_url = (Some Synthetic.grand_catalog, w1) ->
  http_get w1 "https://www.wakacje.pl/opinie/hotele/123-grand-hhotel"
  = (Some Synthetic.grand_reviews, w2) ->
  main http_get fuel s
  = Returned tt
      {| world := w2;
         requested :=
           (requested s ++ [main_url])
             ++ ["https://www.wakacje.pl/opinie/hotele/123-grand-hhotel"];
         opinions_json :=
           Some [{| hotel_url :=
                      "https://www.wakacje.pl/opinie/hotele/123-grand-hhotel";
                    opinions := ["Great stay"; "Would return"] |}] |}.
Proof.
  intros Hcat Hrev.
  rewrite (main_with_links fuel s _ w1 _ Hcat grand_links).
  cbn [for_hotel_urls]. unfold bind.
  unfold scrape_hotel_opinions, bind.
  rewrite (fetch_page_eq http_get _ (after_fetch s main_url w1) _ w2 Hrev).
  change (Soup.find "li" (Some "pagination__item--next")
                    Synthetic.grand_reviews) with (@None node).
  rewrite while_next_page_done. reflexivity.
Qed.

(** C5 (amended): in the end-to-end scenario the carousel link
    "/pl/offer/123-grand-hotel" is rewritten to
    "https://www.wakacje.pl/opinie/hotele/123-grand-hhotel", and with the
    review page of the two opinions answered at that URL the snapshot
    written is the single entry of that URL and the two opinions. *)
Theorem grand_hotel_scenario (fuel : nat) (s : state) (w1 w2 : World) :
  http_get (world s) main_url = (Some Synthetic.grand_catalog, w1) ->
  http_get w1 "https://www.wakacje.pl/opinie/hotele/123-grand-hhotel"
  = (Some Synthetic.grand_reviews, w2) ->
  parse_hotel_links Synthetic.grand_catalog
  = Ok ["https://www.wakacje.pl/opinie/hotele/123-grand-hhotel"] /\
  exists s',
    main http_get fuel s = Returned tt s' /\
    opinions_json s'
    = Some [{| hotel_url :=
                 "https://www.wakacje.pl/opinie/hotele/123-grand-hhotel";
               opinions := ["Great stay"; "Would return"] |}].
Proof.
  intros Hcat Hrev. split; [exact grand_links|].
  rewrite (grand_run fuel s w1 w2 Hcat Hrev).
  eexists. split; reflexivity.
Qed.

End CrawlFacts.

(* ================================================================= *)
(** ** The statements on synthetic sites *)

Lemma three_page_walk_witness :
  exists s',
    scrape_hotel_opinions Synthetic.three_pages 2
      "https://www.wakacje.pl/opinie/hotele/x" (initial tt)
    = Returned ["a"; "b"; "c"; "d"; "e"] s' /\
    requested s' = ["https://www.wakacje.pl/opinie/hotele/x";
                    "https://www.wakacje.pl/opinie/hotele/x?p=2";
                    "https://www.wakacje.pl/opinie/hotele/x?p=3"].
Proof.
  destruct (three_page_walk Synthetic.three_pages 2 (initial tt)
              "https://www.wakacje.pl/opinie/hotele/x"
              "https://www.wakacje.pl/opinie/hotele/x?p=2"
              "https://www.wakacje.pl/opinie/hotele/x?p=3"
              Synthetic.page1 Synthetic.page2 Synthetic.page3 tt tt tt
              (le_n 2) eq_refl eq_refl eq_refl eq_refl eq_refl eq_refl)
    as (s' & Hrun & Hreq & _).
  exists s'. split; [exact Hrun | exact Hreq].
Defined.

Lemma failed_fetch_keeps_opinions_witness :
  scrape_hotel_opinions Synthetic.second_page_down 1
    "https://www.wakacje.pl/opinie/hotele/x" (initial tt)
  = Returned ["a"; "b"]
      {| world := tt;
         requested := ["https://www.wakacje.pl/opinie/hotele/x";
                       "https://www.wakacje.pl/opinie/hotele/x?p=2"];
         opinions_json := None |}.
Proof.
  apply (failed_fetch_keeps_opinions Synthetic.second_page_down 1 (initial tt)
           "https://www.wakacje.pl/opinie/hotele/x" [Synthetic.page1]
           ["https://www.wakacje.pl/opinie/hotele/x"] tt
           "https://www.wakacje.pl/opinie/hotele/x?p=2" tt).
  - discriminate.
  - exists tt, "https://www.wakacje.pl/opinie/hotele/x?p=2", [].
    repeat split; reflexivity.
  - reflexivity.
  - simpl. lia.
Defined.



Lemma grand_hotel_scenario_witness :
  exists s',
    main Synthetic.grand_site 0 (initial tt) = Returned tt s' /\
    opinions_json s'
    = Some [{| hotel_url :=
                 "https://www.wakacje.pl/opinie/hotele/123-grand-hhotel";
               opinions := ["Great stay"; "Would return"] |}].
Proof.
  apply (proj2 (grand_hotel_scenario Synthetic.grand_site 0 (initial tt) tt tt
                  eq_refl eq_refl)).
Defined.

(** C5 as stated fails: the link is not rewritten to
    ".../offer/123-hgrand-hotel", and no run of the scenario writes a
    snapshot with that URL, even when the review page is answered at
    every URL. *)
Lemma grand_hotel_claimed_link_differs :
  parse_hotel_links Synthetic.grand_catalog
  <> Ok ["https://www.wakacje.pl/opinie/hotele/offer/123-hgrand-hotel"] /\
  ~ (exists fuel s',
        main Synthetic.grand_site_any fuel (initial tt) = Returned tt s' /\
        opinions_json s'
        = Some [{| hotel_url :=
                     "https://www.wakacje.pl/opinie/hotele/offer/123-hgrand-hotel";
                   opinions := ["Great stay"; "Would return"] |}]).
Proof.
  split.
  - rewrite grand_links. discriminate.
  - intros (fuel & s' & Hrun & Hjson).
    rewrite (grand_run Synthetic.grand_site_any fuel (initial tt) tt tt
               eq_refl eq_refl) in Hrun.
    injection Hrun as <-. simpl in Hjson. discriminate.
Qed.



(* ================================================================= *)
(** ** Splitting and joining *)

Section SplitJoin.

Variable sep : ascii.

Lemma split_not_empty (s : string) : PyStr.split sep s <> [].
Proof.
  destruct s as [|c r]; simpl; [discriminate|].
  destruct (Ascii.eqb c sep); [discriminate|].
  destruct (PyStr.split sep r); discriminate.
Qed.

(** [sep.join(s.split(sep))] gives [s] back. *)
Lemma join_split (s : string) :
  PyStr.join (String sep "") (PyStr.split sep s) = s.
Proof.
  induction s as [|c r IH]; [reflexivity|].
  cbn [PyStr.split]. destruct (Ascii.eqb c sep) eqn:E.
  - apply Ascii.eqb_eq in E. subst c.
    destruct (PyStr.split sep r) as [|p ps] eqn:Hs;
      [now apply split_not_empty in Hs|].
    change (PyStr.join (String sep "") ("" :: p :: ps))
      with (String sep (PyStr.join (String sep "") (p :: ps))).
    now rewrite IH.
  - destruct (PyStr.split sep r) as [|p ps] eqn:Hs;
      [now apply split_not_empty in Hs|].
    destruct ps as [|q ps]; simpl in *; now rewrite IH.
Qed.

Lemma split_without_sep (s : string) :
  PyStr.contains sep s = false -> PyStr.split sep s = [s].
Proof.
  induction s as [|c r IH]; simpl; intros H; [reflexivity|].
  apply orb_false_iff in H as [Hc Hr].
  rewrite Hc, (IH Hr). reflexivity.
Qed.

Lemma split_append_sep (a b : string) :
  PyStr.contains sep a = false ->
  PyStr.split sep (a ++ String sep b) = a :: PyStr.split sep b.
Proof.
  induction a as [|c a IH]; simpl; intros H.
  - now rewrite Ascii.eqb_refl.
  - apply orb_false_iff in H as [Hc Ha].
    rewrite Hc, (IH Ha). reflexivity.
Qed.

(** No part of a split contains the separator. *)
Lemma split_parts_free (s : string) :
  Forall (fun p => PyStr.contains sep p = false) (PyStr.split sep s).
Proof.
  induction s as [|c r IH]; simpl.
  - constructor; [reflexivity | constructor].
  - destruct (Ascii.eqb c sep) eqn:E.
    + constructor; [reflexivity | exact IH].
    + destruct (PyStr.split sep r) as [|p ps].
      * constructor; [simpl; now rewrite E | constructor].
      * inversion IH; subst.
        constructor; [simpl; rewrite E; assumption | assumption].
Qed.

(** [sep.join(parts).split(sep)] gives [parts] back, when there is at
    least one part and no part contains the separator. *)
Lemma split_join (parts : list string) :
  parts <> [] ->
  Forall (fun p => PyStr.contains sep p = false) parts ->
  PyStr.split sep (PyStr.join (String sep "") parts) = parts.
Proof.
  induction parts as [|p ps IH]; intros Hne H; [contradiction|].
  inversion H as [|? ? Hp Hps]; subst.
  destruct ps as [|q ps].
  - simpl. now apply split_without_sep.
  - change (PyStr.join (String sep "") (p :: q :: ps))
      with (p ++ String sep (PyStr.join (String sep "") (q :: ps))).
    rewrite (split_append_sep _ _ Hp), IH; [reflexivity | discriminate | exact Hps].
Qed.

End SplitJoin.

(** An href with at least four segments is its first three segments, a
    slash, and the part the rewriting keeps. *)
Lemma href_head_remainder (href : string) :
  4 <= List.length (PyStr.split "/" href) ->
  exists head,
    PyStr.split "/" head = firstn 3 (PyStr.split "/" href) /\
    href = head ++ "/" ++ remainder href.
Proof.
  intros H. unfold remainder.
  pose proof (join_split "/" href) as Hj.
  pose proof (split_parts_free "/" href) as Hf.
  destruct (PyStr.split "/" href) as [|a [|b [|c [|d rest]]]];
    simpl in H; try lia.
  exists (PyStr.join "/" [a; b; c]). split.
  - apply split_join; [discriminate|].
    inversion Hf as [|? ? Ha Hf1]; subst.
    inversion Hf1 as [|? ? Hb Hf2]; subst.
    inversion Hf2 as [|? ? Hc _]; subst.
    repeat constructor; assumption.
  - rewrite <- Hj at 1.
    change (skipn 3 (a :: b :: c :: d :: rest)) with (d :: rest).
    change (PyStr.join "/" (a :: b :: c :: d :: rest))
      with (a ++ "/" ++ b ++ "/" ++ c ++ "/" ++ PyStr.join "/" (d :: rest)).
    change (PyStr.join "/" [a; b; c]) with (a ++ "/" ++ b ++ "/" ++ c).
    rewrite !append_assoc. reflexivity.
Qed.

(** X1: the part of an href that reaches the rewritten URL is what
    follows its third slash: an href with at least four segments is a head
    of exactly three segments, a slash, and that part; an href with fewer
    segments contributes nothing. *)
Theorem remainder_after_third_slash (href : string) :
  (4 <= List.length (PyStr.split "/" href) ->
   exists head,
     List.length (PyStr.split "/" head) = 3 /\
     href = head ++ "/" ++ remainder href) /\
  (List.length (PyStr.split "/" href) < 4 -> remainder href = "").
Proof.
  split.
  - intros H. destruct (href_head_remainder href H) as (head & Hs & Hh).
    exists head. split; [|exact Hh].
    rewrite Hs, length_firstn. lia.
  - intros H. apply remainder_short. lia.
Qed.

Lemma remainder_after_third_slash_witness :
  (exists head,
      List.length (PyStr.split "/" head) = 3 /\
      "/pl/offer/123-grand-hotel" = head ++ "/" ++ "123-grand-hotel") /\
  remainder "/pl/offer" = "".
Proof.
  split.
  - apply (proj1 (remainder_after_third_slash "/pl/offer/123-grand-hotel")).
    vm_compute. lia.
  - apply (proj2 (remainder_after_third_slash "/pl/offer")).
    vm_compute. lia.
Defined.

(** X2: whatever the href, the rewritten URL is the fixed prefix and the
    kept part with exactly one "h" put in, at a point after which no '-'
    follows; so it is one character longer. *)
Theorem rewrite_href_one_h (href : string) :
  exists a b,
    hotel_prefix ++ remainder href = a ++ b /\
    rewrite_href href = a ++ "h" ++ b /\
    PyStr.contains "-" b = false /\
    String.length (rewrite_href href)
    = S (String.length (hotel_prefix ++ remainder href)).
Proof.
  destruct (PyStr.contains "-" (remainder href)) eqn:E.
  - destruct (rewrite_href_dash href E) as (a & b & Hr & Hb & Hu).
    exists (hotel_prefix ++ a ++ "-"), b.
    rewrite Hu, Hr. repeat split.
    + now rewrite !append_assoc.
    + now rewrite !append_assoc.
    + exact Hb.
    + rewrite !length_append. simpl. lia.
  - exists "", (hotel_prefix ++ remainder href).
    rewrite (rewrite_href_no_dash href E). repeat split.
    rewrite contains_append, prefix_has_no_dash, E. reflexivity.
Qed.

(** The loop over the anchors fails exactly when an anchor has no href. *)
Lemma for_offer_links_fails (links : list node) :
  forall urls,
    for_offer_links links urls = Err AttributeError <->
    exists link, In link links /\ Soup.get_href link = None.
Proof.
  induction links as [|l links IH]; intros urls; cbn [for_offer_links].
  - split; [discriminate | intros (link & [] & _)].
  - destruct (Soup.get_href l) as [h|] eqn:E.
    + rewrite IH. split.
      * intros (link & Hin & Hn). exists link. split; [now right | exact Hn].
      * intros (link & [<- | Hin] & Hn); [congruence|].
        exists link. split; assumption.
    + split; [|reflexivity]. intros _. exists l. split; [now left | exact E].
Qed.

(** X3: with a carousel in the catalog, [parse_hotel_links] raises
    [AttributeError] exactly when some anchor of the carousel has no href;
    one such anchor loses the links of all the others. *)
Theorem parse_hotel_links_fails_iff (soup carousel : node) :
  Soup.find "div" (Some "swiper-wrapper") soup = Some carousel ->
  (parse_hotel_links soup = Err AttributeError <->
   exists link,
     In link (Soup.find_all "a" None carousel) /\ Soup.get_href link = None).
Proof.
  intros Hc. unfold parse_hotel_links. rewrite Hc.
  apply for_offer_links_fails.
Qed.

Lemma parse_hotel_links_fails_iff_witness :
  parse_hotel_links
    (Synthetic.document
       [Tag "div" ["swiper-wrapper"] None
            [Synthetic.anchor "/pl/o/1-a"; Tag "a" [] None [];
             Synthetic.anchor "/pl/o/2-b"]])
  = Err AttributeError.
Proof.
  apply (proj2 (parse_hotel_links_fails_iff
                  (Synthetic.document
                     [Tag "div" ["swiper-wrapper"] None
                          [Synthetic.anchor "/pl/o/1-a"; Tag "a" [] None [];
                           Synthetic.anchor "/pl/o/2-b"]])
                  (Tag "div" ["swiper-wrapper"] None
                       [Synthetic.anchor "/pl/o/1-a"; Tag "a" [] None [];
                        Synthetic.anchor "/pl/o/2-b"])
                  eq_refl)).
  exists (Tag "a" [] None []). split; [right; left; reflexivity | reflexivity].
Defined.

(* ================================================================= *)
(** ** Stripping *)

Lemma lstrip_length (s : string) :
  String.length (PyStr.lstrip s) <= String.length s.
Proof.
  induction s as [|c r IH]; simpl; [lia|].
  destruct (PyStr.isspace c); simpl; lia.
Qed.

Lemma lstrip_head (s : string) :
  PyStr.lstrip s = "" \/
  exists c r, PyStr.lstrip s = String c r /\ PyStr.isspace c = false.
Proof.
  induction s as [|c r IH]; simpl; [now left|].
  destruct (PyStr.isspace c) eqn:E; [exact IH|].
  right. now exists c, r.
Qed.

Lemma lstrip_fixed_head (c : ascii) (r : string) :
  PyStr.lstrip (String c r) = String c r -> PyStr.isspace c = false.
Proof.
  simpl. destruct (PyStr.isspace c); [|reflexivity].
  intros H. pose proof (lstrip_length r) as Hl.
  rewrite H in Hl. simpl in Hl. lia.
Qed.

Lemma rstrip_keeps_head (c : ascii) (r : string) :
  PyStr.isspace c = false ->
  exists r', PyStr.rstrip (String c r) = String c r'.
Proof.
  intros H. simpl. destruct (PyStr.rstrip r) as [|d r'].
  - rewrite H. now exists "".
  - now exists (String d r').
Qed.

Lemma rstrip_idempotent (s : string) :
  PyStr.rstrip (PyStr.rstrip s) = PyStr.rstrip s.
Proof.
  induction s as [|c r IH]; [reflexivity|].
  cbn [PyStr.rstrip]. destruct (PyStr.rstrip r) as [|d r'] eqn:E.
  - destruct (PyStr.isspace c) eqn:Hc; [reflexivity|].
    simpl. now rewrite Hc.
  - cbn [PyStr.rstrip]. cbn [PyStr.rstrip] in IH.
    destruct (PyStr.rstrip r') as [|e r'']; rewrite IH; reflexivity.
Qed.

Lemma rstrip_append (a b : string) :
  b <> "" -> PyStr.rstrip b = b -> PyStr.rstrip (a ++ b) = a ++ b.
Proof.
  intros Hne Hb. induction a as [|c a IH]; [exact Hb|].
  change (String c a ++ b) with (String c (a ++ b)).
  cbn [PyStr.rstrip]. rewrite IH.
  destruct (a ++ b) as [|d r] eqn:E; [|reflexivity].
  destruct a; [contradiction | discriminate].
Qed.

Lemma strip_stripped (s : string) :
  PyStr.strip s <> "" -> stripped (PyStr.strip s).
Proof.
  unfold PyStr.strip. intros Hne. split; [exact Hne|]. split.
  - destruct (lstrip_head s) as [H | (c & r & H & Hc)]; rewrite H in *.
    + now contradiction Hne.
    + destruct (rstrip_keeps_head c r Hc) as (r' & ->).
      simpl. now rewrite Hc.
  - apply rstrip_idempotent.
Qed.

Lemma stripped_append (a b : string) :
  stripped a -> stripped b -> stripped (a ++ b).
Proof.
  intros (Ha & Hla & _) (Hb & _ & Hrb). split; [|split].
  - destruct a; [contradiction | discriminate].
  - destruct a as [|c r]; [contradiction|].
    pose proof (lstrip_fixed_head c r Hla) as Hc.
    simpl. now rewrite Hc.
  - now apply rstrip_append.
Qed.

Lemma stripped_strings_stripped (ns : list node) :
  Forall stripped (Soup.stripped_strings ns).
Proof.
  induction ns as [|n ns IH]; [constructor|].
  destruct n as [t | nm cl h cs]; cbn [Soup.stripped_strings]; [|exact IH].
  destruct (PyStr.strip t) as [|c r] eqn:E; [exact IH|].
  constructor; [|exact IH].
  rewrite <- E. apply strip_stripped. rewrite E. discriminate.
Qed.

Lemma join_stripped (pieces : list string) :
  pieces <> [] -> Forall stripped pieces -> stripped (PyStr.join "" pieces).
Proof.
  induction pieces as [|p ps IH]; intros Hne H; [contradiction|].
  inversion H as [|? ? Hp Hps]; subst.
  destruct ps as [|q ps]; [exact Hp|].
  change (PyStr.join "" (p :: q :: ps)) with (p ++ PyStr.join "" (q :: ps)).
  apply stripped_append; [exact Hp|].
  apply IH; [discriminate | exact Hps].
Qed.

Lemma get_text_strip_fixed (n : node) :
  PyStr.strip (Soup.get_text_strip n) = Soup.get_text_strip n.
Proof.
  unfold Soup.get_text_strip.
  pose proof (stripped_strings_stripped (Soup.descendants n)) as H.
  destruct (Soup.stripped_strings (Soup.descendants n)) as [|p ps] eqn:E;
    [reflexivity|].
  destruct (join_stripped (p :: ps) ltac:(discriminate) H) as (_ & Hl & Hr).
  unfold PyStr.strip. now rewrite Hl, Hr.
Qed.

(** X4: every opinion [extract_opinions] returns is already stripped:
    stripping it again changes nothing, also when the paragraph's text is
    spread over nested tags. *)
Theorem extract_opinions_stripped (soup : node) (opinion : string) :
  In opinion (extract_opinions soup) -> PyStr.strip opinion = opinion.
Proof.
  unfold extract_opinions.
  destruct (Soup.find "div" (Some "opinions__list") soup) as [c|];
    [|intros []].
  intros H. apply in_map_iff in H as (n & <- & _).
  apply get_text_strip_fixed.
Qed.

Lemma extract_opinions_stripped_witness :
  PyStr.strip "Great stay" = "Great stay".
Proof.
  apply (extract_opinions_stripped
           (Synthetic.review_page ["  Great stay "; "Would return"] None)).
  vm_compute. left. reflexivity.
Defined.

(* ================================================================= *)
(** ** What a walk requests and what it leaves alone *)

Lemma prefix_append (a b : string) : String.prefix a (a ++ b) = true.
Proof.
  induction a as [|c a IH]; simpl; [now destruct b|].
  destruct (Ascii.ascii_dec c c); [exact IH | contradiction].
Qed.

Section WalkInvariants.

Context {World : Type}.
Variable http_get : World -> string -> option node * World.

Local Abbreviation state := (state World).
Local Abbreviation next_marker := (Some "pagination__item--next").

(** The loop only appends requests, all of them under the site root, and
    does not touch the output file. *)
Lemma while_next_page_log (fuel : nat) :
  forall (acc : list string) (np : option node) (s s' : state),
    final (while_next_page http_get fuel acc np s) = Some s' ->
    exists more,
      requested s' = (requested s ++ more)%list /\
      Forall on_site more /\
      world s' = fold_left (fun w u => snd (http_get w u)) more (world s) /\
      opinions_json s' = opinions_json s.
Proof.
  induction fuel as [|fuel IH]; intros acc np s s' H.
  - destruct np as [li|]; [discriminate|].
    injection H as <-. exists []. now rewrite app_nil_r.
  - destruct np as [li|].
    2:{ injection H as <-. exists []. now rewrite app_nil_r. }
    cbn [while_next_page] in H.
    destruct (Soup.find "a" None li) as [a|].
    2:{ injection H as <-. exists []. now rewrite app_nil_r. }
    unfold bind at 1 in H. unfold ret at 1 in H. unfold bind at 1 in H.
    set (url := "https://www.wakacje.pl" ++ PyStr.str (Soup.get_href a)) in *.
    destruct (http_get (world s) url) as [r w] eqn:Hg.
    rewrite (fetch_page_eq http_get url s r w Hg) in H.
    assert (Hs : snd (http_get (world s) url) = w) by now rewrite Hg.
    destruct r as [soup|].
    + destruct (IH _ _ _ _ H) as (more & Hr & Hf & Hw & Hj).
      exists (url :: more). simpl in Hr, Hj, Hw.
      rewrite Hr, <- app_assoc. repeat split; try assumption.
      * constructor; [apply prefix_append | exact Hf].
      * simpl. now rewrite Hs.
    + injection H as <-. exists [url]. simpl. repeat split.
      * constructor; [apply prefix_append | constructor].
      * now rewrite Hs.
Qed.

Lemma scrape_log (fuel : nat) (u : string) (s s' : state) :
  final (scrape_hotel_opinions http_get fuel u s) = Some s' ->
  exists more,
    requested s' = (requested s ++ u :: more)%list /\
    Forall on_site more /\
    world s' = fold_left (fun w x => snd (http_get w x)) (u :: more) (world s) /\
    opinions_json s' = opinions_json s.
Proof.
  unfold scrape_hotel_opinions, bind. intros H.
  destruct (http_get (world s) u) as [r w] eqn:Hg.
  rewrite (fetch_page_eq http_get u s r w Hg) in H.
  assert (Hs : snd (http_get (world s) u) = w) by now rewrite Hg.
  destruct r as [soup|].
  - destruct (while_next_page_log _ _ _ _ _ H) as (more & Hr & Hf & Hw & Hj).
    exists more. simpl in Hr, Hj, Hw. rewrite Hr, <- app_assoc.
    repeat split; try assumption. simpl. now rewrite Hs.
  - injection H as <-. exists []. simpl. repeat split; [constructor|].
    now rewrite Hs.
Qed.

(** X5: a walk that ends, normally or in an exception, has requested the
    start URL first and after it only URLs under
    "https://www.wakacje.pl"; the world is the one these requests leave,
    and the output file is as it was. *)
Theorem walk_stays_on_site (fuel : nat) (u : string) (s s' : state) :
  final (scrape_hotel_opinions http_get fuel u s) = Some s' ->
  exists more,
    requested s' = (requested s ++ u :: more)%list /\
    Forall on_site more /\
    world s' = fold_left (fun w x => snd (http_get w x)) (u :: more) (world s) /\
    opinions_json s' = opinions_json s.
Proof. apply scrape_log. Qed.

(** The loop over a chain of served pages, ended by a page whose
    next-page control holds no anchor. *)
Lemma while_next_page_bare (pages : list node) :
  forall (p0 : node) (u : string) (us : list string) (w' : World)
         (u' : string) (q li : node) (w'' : World) (fuel : nat)
         (acc : list string) (s : state),
    next_page_url p0 = Some u ->
    served http_get (world s) u pages us w' u' ->
    http_get w' u' = (Some q, w'') ->
    Soup.find "li" next_marker q = Some li ->
    Soup.find "a" None li = None ->
    S (List.length pages) < fuel ->
    while_next_page http_get fuel acc (Soup.find "li" next_marker p0) s
    = Raised AttributeError
        {| world := w'';
           requested := requested s ++ us ++ [u'];
           opinions_json := opinions_json s |}.
Proof.
  induction pages as [|p rest IH];
    intros p0 u us w' u' q li w'' fuel acc s Hn Hs Hg Hli Ha Hfuel.
  - destruct Hs as (-> & -> & ->).
    destruct fuel as [|[|fuel]]; try (simpl in Hfuel; lia).
    rewrite (while_next_page_step http_get _ acc p0 u s (Some q) w'' Hn Hg).
    rewrite Hli. cbn [while_next_page]. rewrite Ha. reflexivity.
  - destruct Hs as (w1 & u1 & us1 & Hg1 & Hn1 & -> & Hrest).
    destruct fuel as [|fuel]; [simpl in Hfuel; lia|].
    rewrite (while_next_page_step http_get fuel acc p0 u s (Some p) w1 Hn Hg1).
    rewrite (IH p u1 us1 w' u' q li w'' fuel _ (after_fetch s u w1)
                Hn1 Hrest Hg Hli Ha ltac:(simpl in Hfuel; lia)).
    simpl. rewrite <- !app_assoc. reflexivity.
Qed.

(** X6: when the pages fetched so far ([pages], possibly none) lead to a
    page whose next-page control holds no anchor, the walk ends in an
    [AttributeError]: the opinions gathered on the way are not returned. *)
Theorem bare_control_raises
        (fuel : nat) (s : state) (u : string) (pages : list node)
        (us : list string) (w' : World) (u' : string) (q li : node)
        (w'' : World) :
  served http_get (world s) u pages us w' u' ->
  http_get w' u' = (Some q, w'') ->
  Soup.find "li" next_marker q = Some li ->
  Soup.find "a" None li = None ->
  List.length pages < fuel ->
  scrape_hotel_opinions http_get fuel u s
  = Raised AttributeError
      {| world := w'';
         requested := requested s ++ us ++ [u'];
         opinions_json := opinions_json s |}.
Proof.
  intros Hs Hg Hli Ha Hfuel. unfold scrape_hotel_opinions, bind.
  destruct pages as [|p rest].
  - destruct Hs as (-> & -> & ->).
    rewrite (fetch_page_eq http_get _ s _ _ Hg), Hli.
    destruct fuel as [|fuel]; [simpl in Hfuel; lia|].
    cbn [while_next_page]. rewrite Ha. reflexivity.
  - destruct Hs as (w1 & u1 & us1 & Hg1 & Hn1 & -> & Hrest).
    rewrite (fetch_page_eq http_get _ s _ _ Hg1).
    rewrite (while_next_page_bare rest p u1 us1 w' u' q li w'' fuel _
               (after_fetch s u w1) Hn1 Hrest Hg Hli Ha
               ltac:(simpl in Hfuel; lia)).
    simpl. rewrite <- !app_assoc. reflexivity.
Qed.

(** X7: when the anchor of a page's next-page control has no href, the
    walk goes on to request "https://www.wakacje.plNone"; with that
    request failing, it returns the opinions of the page. *)
Theorem bare_anchor_requests_none
        (fuel : nat) (s : state) (u : string) (p li a : node) (w1 w2 : World) :
  http_get (world s) u = (Some p, w1) ->
  Soup.find "li" next_marker p = Some li ->
  Soup.find "a" None li = Some a ->
  Soup.get_href a = None ->
  http_get w1 "https://www.wakacje.plNone" = (None, w2) ->
  1 <= fuel ->
  scrape_hotel_opinions http_get fuel u s
  = Returned (extract_opinions p)
      {| world := w2;
         requested := requested s ++ [u; "https://www.wakacje.plNone"];
         opinions_json := opinions_json s |}.
Proof.
  intros Hg Hli Ha Hh Hg2 Hfuel.
  assert (Hn : next_page_url p = Some "https://www.wakacje.plNone").
  { unfold next_page_url. now rewrite Hli, Ha, Hh. }
  rewrite (scrape_served http_get p [] u [u] w1
             "https://www.wakacje.plNone" None w2 fuel s).
  - simpl. now rewrite !app_nil_r.
  - exists w1, "https://www.wakacje.plNone", []. repeat split; assumption.
  - exact Hg2.
  - discriminate.
  - simpl. lia.
Qed.

Lemma while_next_page_endless :
  (forall w u, exists p w' u',
        http_get w u = (Some p, w') /\ next_page_url p = Some u') ->
  forall (fuel : nat) (acc : list string) (p0 : node) (u : string) (s : state),
    next_page_url p0 = Some u ->
    while_next_page http_get fuel acc (Soup.find "li" next_marker p0) s
    = OutOfFuel.
Proof.
  intros Hall. induction fuel as [|fuel IH]; intros acc p0 u s Hn.
  - destruct (next_page_url_some p0 u Hn) as (li & a & -> & _). reflexivity.
  - destruct (Hall (world s) u) as (p & w' & u' & Hg & Hn').
    rewrite (while_next_page_step http_get fuel acc p0 u s (Some p) w' Hn Hg).
    now apply (IH _ p u').
Qed.

(** X8: on a site where every request is answered by a page that has a
    next-page link, the walk never ends: no number of iterations is
    enough for it to return or to raise. *)
Theorem endless_pagination_never_returns :
  (forall w u, exists p w' u',
        http_get w u = (Some p, w') /\ next_page_url p = Some u') ->
  forall (fuel : nat) (u : string) (s : state),
    scrape_hotel_opinions http_get fuel u s = OutOfFuel.
Proof.
  intros Hall fuel u s. unfold scrape_hotel_opinions, bind.
  destruct (Hall (world s) u) as (p & w' & u' & Hg & Hn).
  rewrite (fetch_page_eq http_get _ s _ _ Hg).
  now apply (while_next_page_endless Hall fuel _ p u').
Qed.

End WalkInvariants.

(* ================================================================= *)
(** ** What the crawl writes, and when *)

Section CrawlInvariants.

Context {World : Type}.
Variable http_get : World -> string -> option node * World.

Local Abbreviation state := (state World).

Lemma for_hotel_urls_log (fuel : nat) (urls : list string) :
  forall (data : list entry) (s s' : state),
    final (for_hotel_urls http_get fuel urls data s) = Some s' ->
    (exists more, requested s' = (requested s ++ more)%list) /\
    opinions_json s' = opinions_json s.
Proof.
  induction urls as [|u urls IH]; intros data s s' H.
  - injection H as <-. split; [exists []; now rewrite app_nil_r | reflexivity].
  - cbn [for_hotel_urls] in H. unfold bind in H.
    destruct (scrape_hotel_opinions http_get fuel u s) as [ops s1|e s1|] eqn:E.
    + destruct (scrape_log http_get fuel u s s1) as (m1 & Hr1 & _ & _ & Hj1);
        [now rewrite E|].
      destruct (IH _ _ _ H) as ((m2 & Hr2) & Hj2).
      split; [|congruence].
      exists ((u :: m1) ++ m2)%list. now rewrite Hr2, Hr1, <- app_assoc.
    + injection H as <-.
      destruct (scrape_log http_get fuel u s s1) as (m1 & Hr1 & _ & _ & Hj1);
        [now rewrite E|].
      split; [now exists (u :: m1) | exact Hj1].
    + discriminate.
Qed.

(** X9: when the catalog page has no carousel, [main] asks for nothing
    but the catalog and writes the empty snapshot. *)
Theorem main_without_carousel (fuel : nat) (s : state) (soup : node) (w : World) :
  http_get (world s) main_url = (Some soup, w) ->
  lacks_marker "div" "swiper-wrapper" soup ->
  main http_get fuel s
  = Returned tt {| world := w;
                   requested := requested s ++ [main_url];
                   opinions_json := Some [] |}.
Proof.
  intros Hg Hl.
  assert (Hp : parse_hotel_links soup = Ok []).
  { unfold parse_hotel_links. now rewrite (find_lacking _ _ _ Hl). }
  rewrite (main_with_links http_get fuel s soup w [] Hg Hp). reflexivity.
Qed.


End CrawlInvariants.

Lemma walk_stays_on_site_witness :
  exists more,
    ["https://www.wakacje.pl/opinie/hotele/x";
     "https://www.wakacje.pl/opinie/hotele/x?p=2";
     "https://www.wakacje.pl/opinie/hotele/x?p=3"]
    = "https://www.wakacje.pl/opinie/hotele/x" :: more /\
    Forall on_site more.
Proof.
  destruct (walk_stays_on_site Synthetic.three_pages 2
              "https://www.wakacje.pl/opinie/hotele/x" (initial tt)
              {| world := tt;
                 requested := ["https://www.wakacje.pl/opinie/hotele/x";
                               "https://www.wakacje.pl/opinie/hotele/x?p=2";
                               "https://www.wakacje.pl/opinie/hotele/x?p=3"];
                 opinions_json := None |}
              eq_refl)
    as (more & Hr & Hf & _).
  exists more. split; [exact Hr | exact Hf].
Defined.

Lemma bare_control_raises_witness :
  scrape_hotel_opinions Broken.bare_control_site 2
    "https://www.wakacje.pl/opinie/hotele/x" (initial tt)
  = Raised AttributeError
      {| world := tt;
         requested := ["https://www.wakacje.pl/opinie/hotele/x";
                       "https://www.wakacje.pl/opinie/hotele/x?p=2"];
         opinions_json := None |}.
Proof.
  apply (bare_control_raises Broken.bare_control_site 2 (initial tt)
           "https://www.wakacje.pl/opinie/hotele/x" [Synthetic.page1]
           ["https://www.wakacje.pl/opinie/hotele/x"] tt
           "https://www.wakacje.pl/opinie/hotele/x?p=2"
           Broken.bare_control_page
           (Tag "li" ["pagination__item--next"] None []) tt).
  - exists tt, "https://www.wakacje.pl/opinie/hotele/x?p=2", [].
    repeat split; reflexivity.
  - reflexivity.
  - reflexivity.
  - reflexivity.
  - simpl. lia.
Defined.

Lemma bare_anchor_requests_none_witness :
  scrape_hotel_opinions Broken.bare_anchor_hotel 1
    "https://www.wakacje.pl/opinie/hotele/x" (initial tt)
  = Returned ["first"]
      {| world := tt;
         requested := ["https://www.wakacje.pl/opinie/hotele/x";
                       "https://www.wakacje.plNone"];
         opinions_json := None |}.
Proof.
  apply (bare_anchor_requests_none Broken.bare_anchor_hotel 1 (initial tt)
           "https://www.wakacje.pl/opinie/hotele/x" Broken.bare_anchor_page
           (Tag "li" ["pagination__item--next"] None [Tag "a" [] None []])
           (Tag "a" [] None []) tt tt);
    reflexivity.
Defined.

Lemma endless_pagination_never_returns_witness :
  scrape_hotel_opinions Broken.loop_site 1000
    "https://www.wakacje.pl/opinie/hotele/x" (initial tt)
  = OutOfFuel.
Proof.
  apply (endless_pagination_never_returns Broken.loop_site).
  intros w u. exists Broken.loop_page, tt, "https://www.wakacje.pl/opinie/hotele/x".
  split; reflexivity.
Defined.

Lemma main_without_carousel_witness :
  main Broken.plain_site 0 (initial tt)
  = Returned tt {| world := tt;
                   requested := [main_url];
                   opinions_json := Some [] |}.
Proof.
  apply (main_without_carousel Broken.plain_site 0 (initial tt)
           Synthetic.grand_reviews tt eq_refl).
  apply lacks_marker_check. reflexivity.
Defined.


(* ================================================================= *)
(** ** The corpus *)

Section CorpusFacts.

Variable lower : string -> string.

Lemma for_opinions_lines (ops : list string) :
  forall corpus,
    Pipeline.for_opinions lower ops corpus
    = (corpus ++ map (Pipeline.clean lower) ops)%list.
Proof.
  induction ops as [|o ops IH]; intros corpus; simpl.
  - now rewrite app_nil_r.
  - rewrite IH, <- app_assoc. reflexivity.
Qed.

Lemma for_items_lines (data : list entry) :
  forall corpus,
    Pipeline.for_items lower data corpus
    = (corpus ++ map (Pipeline.clean lower) (flat_map opinions data))%list.
Proof.
  induction data as [|item data IH]; intros corpus; simpl.
  - now rewrite app_nil_r.
  - rewrite IH, for_opinions_lines, map_app, <- app_assoc. reflexivity.
Qed.

Lemma create_corpus_lines (data : list entry) :
  Pipeline.create_corpus lower data
  = map (Pipeline.clean lower) (flat_map opinions data).
Proof. unfold Pipeline.create_corpus. now rewrite for_items_lines. Qed.

(** X11: the corpus has one line per opinion, in the order of the items
    and, inside an item, of its opinions: line number [i] is opinion
    number [i] of all the opinions in that order, with its punctuation
    taken out and the rest put in lower case.  So an item without
    opinions adds nothing, and the corpus of two data lists put together
    is the two corpora put together. *)
Theorem create_corpus_one_line_per_opinion (data more : list entry) :
  Pipeline.create_corpus lower data
  = map (fun opinion =>
           lower (PyText.keep
                    (fun c => negb (PyStr.contains c PyText.punctuation))
                    opinion))
        (flat_map opinions data) /\
  List.length (Pipeline.create_corpus lower data)
  = List.length (flat_map opinions data) /\
  (forall i opinion,
      nth_error (flat_map opinions data) i = Some opinion ->
      nth_error (Pipeline.create_corpus lower data) i
      = Some (lower (PyText.keep
                       (fun c => negb (PyStr.contains c PyText.punctuation))
                       opinion))) /\
  Pipeline.create_corpus lower (data ++ more)
  = (Pipeline.create_corpus lower data
       ++ Pipeline.create_corpus lower more)%list /\
  (forall url, Pipeline.create_corpus lower
                 (data ++ {| hotel_url := url; opinions := [] |} :: more)
               = Pipeline.create_corpus lower (data ++ more)).
Proof.
  rewrite !create_corpus_lines. repeat split.
  - apply length_map.
  - intros i opinion Hi.
    apply (map_nth_error (Pipeline.clean lower) i _ Hi).
  - now rewrite flat_map_app, map_app.
  - intros url. rewrite !create_corpus_lines, !flat_map_app. reflexivity.
Qed.

End CorpusFacts.

Lemma create_corpus_one_line_per_opinion_witness :
  nth_error
    (Pipeline.create_corpus (fun t => t)
       [{| hotel_url := "u"; opinions := ["great, stay!"; "..."] |};
        {| hotel_url := "v"; opinions := ["would-return"] |}]) 2
  = Some "wouldreturn".
Proof.
  apply (proj1 (proj2 (proj2 (create_corpus_one_line_per_opinion (fun t => t)
           [{| hotel_url := "u"; opinions := ["great, stay!"; "..."] |};
            {| hotel_url := "v"; opinions := ["would-return"] |}] [])))
           2 "would-return").
  reflexivity.
Defined.

(* ================================================================= *)
(** ** Tokens, stop words and the token files *)

Section TokenFacts.

Variable lower : string -> string.
Variable nlp : string -> option (list Pipeline.token).
Variable stop_words : string -> bool.

Lemma for_texts_from (corpus : list string) :
  forall tokens,
    Pipeline.for_texts nlp corpus tokens
    = match Pipeline.for_texts nlp corpus [] with
      | Some found => Some (tokens ++ found)%list
      | None => None
      end.
Proof.
  induction corpus as [|t corpus IH]; intros tokens; simpl.
  - now rewrite app_nil_r.
  - destruct (nlp t) as [doc|]; [|reflexivity].
    rewrite IH, (IH (map Pipeline.text doc)).
    destruct (Pipeline.for_texts nlp corpus []); [|reflexivity].
    now rewrite app_assoc.
Qed.

Lemma tokenize_one (t : string) :
  Pipeline.tokenize nlp [t]
  = match nlp t with
    | Some doc => Some (map Pipeline.text doc)
    | None => None
    end.
Proof.
  unfold Pipeline.tokenize. simpl. now destruct (nlp t).
Qed.

Lemma tokenize_split (corpus more : list string) :
  Pipeline.tokenize nlp (corpus ++ more)
  = match Pipeline.tokenize nlp corpus, Pipeline.tokenize nlp more with
    | Some t1, Some t2 => Some (t1 ++ t2)%list
    | _, _ => None
    end.
Proof.
  unfold Pipeline.tokenize.
  induction corpus as [|t corpus IH]; simpl.
  - now destruct (Pipeline.for_texts nlp more []).
  - destruct (nlp t) as [doc|]; [|reflexivity].
    rewrite for_texts_from, (for_texts_from corpus (map Pipeline.text doc)), IH.
    destruct (Pipeline.for_texts nlp corpus []); [|reflexivity].
    destruct (Pipeline.for_texts nlp more []); [|reflexivity].
    now rewrite app_assoc.
Qed.

Lemma tokenize_fails (corpus : list string) :
  Pipeline.tokenize nlp corpus = None <->
  exists t, In t corpus /\ nlp t = None.
Proof.
  induction corpus as [|t corpus IH].
  - split; [discriminate | intros (t & [] & _)].
  - change (t :: corpus) with ([t] ++ corpus)%list.
    rewrite tokenize_split, tokenize_one. split.
    + destruct (nlp t) as [doc|] eqn:E.
      * destruct (Pipeline.tokenize nlp corpus); [discriminate|].
        intros _. destruct (proj1 IH eq_refl) as (x & Hx & Hn).
        exists x. split; [now right | exact Hn].
      * intros _. exists t. split; [now left | exact E].
    + intros (x & [<- | Hx] & Hn).
      * now rewrite Hn.
      * destruct (nlp t); [|reflexivity].
        rewrite (proj2 IH (ex_intro _ x (conj Hx Hn))). reflexivity.
Qed.

(** X14: the texts of a corpus are tokenized one by one.  The tokens of
    one text are the texts of the tokens [nlp] finds in it; the tokens of
    two corpora put together are the tokens of the first followed by the
    tokens of the second; and the call fails exactly when [nlp] fails on
    some text of the corpus. *)
Theorem tokenize_append (corpus more : list string) :
  Pipeline.tokenize nlp [] = Some [] /\
  (forall t,
      Pipeline.tokenize nlp [t]
      = match nlp t with
        | Some doc => Some (map Pipeline.text doc)
        | None => None
        end) /\
  Pipeline.tokenize nlp (corpus ++ more)
  = match Pipeline.tokenize nlp corpus, Pipeline.tokenize nlp more with
    | Some t1, Some t2 => Some (t1 ++ t2)%list
    | _, _ => None
    end /\
  (Pipeline.tokenize nlp corpus = None <->
   exists t, In t corpus /\ nlp t = None).
Proof.
  split; [reflexivity|]. split; [apply tokenize_one|].
  split; [apply tokenize_split | apply tokenize_fails].
Qed.

(** X15: [lemmatize] does not see where one token ends and the next
    begins: two neighbouring tokens and the single token made of them
    with a space in between give the same lemmas. *)
Theorem lemmatize_merges_tokens (a b : string) (rest : list string) :
  Pipeline.lemmatize nlp (a :: b :: rest)
  = Pipeline.lemmatize nlp ((a ++ " " ++ b) :: rest).
Proof.
  unfold Pipeline.lemmatize.
  replace (PyStr.join " " ((a ++ " " ++ b) :: rest))
    with (PyStr.join " " (a :: b :: rest)); [reflexivity|].
  destruct rest as [|r rest]; [reflexivity|].
  change (PyStr.join " " (a :: b :: r :: rest))
    with (a ++ " " ++ b ++ " " ++ PyStr.join " " (r :: rest)).
  change (PyStr.join " " ((a ++ " " ++ b) :: r :: rest))
    with ((a ++ " " ++ b) ++ " " ++ PyStr.join " " (r :: rest)).
  now rewrite !append_assoc.
Qed.

Lemma remove_stop_words_free (tokens : list string) :
  Forall (fun t => stop_words (lower t) = false)
         (Pipeline.remove_stop_words lower stop_words tokens).
Proof.
  apply Forall_forall. intros t Ht.
  apply filter_In in Ht as [_ Ht]. now apply negb_true_iff in Ht.
Qed.

Lemma remove_stop_words_keeps (tokens : list string) :
  Forall (fun t => stop_words (lower t) = false) tokens ->
  Pipeline.remove_stop_words lower stop_words tokens = tokens.
Proof.
  induction 1 as [|t l Ht _ IH]; [reflexivity|].
  unfold Pipeline.remove_stop_words in *. simpl.
  now rewrite Ht, IH.
Qed.

(** X16: after [remove_stop_words] no token is a stop word, capitals
    notwithstanding; a list without stop words comes back unchanged; so
    removing twice is removing once. *)
Theorem remove_stop_words_idempotent (tokens : list string) :
  Forall (fun t => stop_words (lower t) = false)
         (Pipeline.remove_stop_words lower stop_words tokens) /\
  (Forall (fun t => stop_words (lower t) = false) tokens ->
   Pipeline.remove_stop_words lower stop_words tokens = tokens) /\
  Pipeline.remove_stop_words lower stop_words
    (Pipeline.remove_stop_words lower stop_words tokens)
  = Pipeline.remove_stop_words lower stop_words tokens.
Proof.
  split; [apply remove_stop_words_free|].
  split; [apply remove_stop_words_keeps|].
  apply remove_stop_words_keeps, remove_stop_words_free.
Qed.

End TokenFacts.

Lemma tokenize_append_witness :
  Pipeline.tokenize Pipeline.cut_at_spaces ["great stay"; ""; "ok"] = None.
Proof.
  apply (proj2 (proj2 (proj2 (proj2
           (tokenize_append Pipeline.cut_at_spaces
              ["great stay"; ""; "ok"] []))))).
  exists "". split; [right; left; reflexivity | reflexivity].
Defined.

Lemma remove_stop_words_idempotent_witness :
  Pipeline.remove_stop_words (fun t => t) Pipeline.few_stop_words
    ["nie"; "hotel"; "i"; "plaza"]
  = ["hotel"; "plaza"] /\
  Pipeline.remove_stop_words (fun t => t) Pipeline.few_stop_words
    ["hotel"; "plaza"]
  = ["hotel"; "plaza"].
Proof.
  split; [reflexivity|].
  apply (proj1 (proj2 (remove_stop_words_idempotent (fun t => t)
                         Pipeline.few_stop_words ["hotel"; "plaza"]))).
  repeat constructor.
Defined.

Lemma join_chars (token : string) :
  PyStr.join "" (PyText.chars token) = token.
Proof.
  induction token as [|c r IH]; [reflexivity|].
  cbn [PyText.chars]. destruct r as [|d r]; [reflexivity|].
  change (PyStr.join "" (String c "" :: PyText.chars (String d r)))
    with (String c (PyStr.join "" (PyText.chars (String d r)))).
  now rewrite IH.
Qed.

Lemma written_content (file_path : string) (tokens : list string)
      (fs : Pipeline.files) :
  Pipeline.write_tokens_to_file file_path tokens fs file_path
  = Some (PyStr.join PyText.newline tokens).
Proof.
  unfold Pipeline.write_tokens_to_file, Pipeline.write.
  rewrite String.eqb_refl. f_equal. f_equal.
  induction tokens as [|t l IH]; [reflexivity|].
  simpl. now rewrite join_chars, IH.
Qed.

(** X17: [write_tokens_to_file] writes one token per line and leaves the
    other files alone.  When there is at least one token and no token
    holds a newline, splitting the written content at the newlines gives
    the tokens back; an empty list writes the empty file, as a list of
    one empty token does. *)
Theorem write_tokens_round_trip
        (file_path : string) (tokens : list string) (fs : Pipeline.files) :
  (tokens <> [] ->
   Forall (fun t => PyStr.contains (ascii_of_nat 10) t = false) tokens ->
   exists content,
     Pipeline.write_tokens_to_file file_path tokens fs file_path
     = Some content /\
     PyStr.split (ascii_of_nat 10) content = tokens) /\
  (forall other,
      String.eqb other file_path = false ->
      Pipeline.write_tokens_to_file file_path tokens fs other = fs other) /\
  Pipeline.write_tokens_to_file file_path [] fs file_path = Some "" /\
  Pipeline.write_tokens_to_file file_path [""] fs file_path = Some "".
Proof.
  split; [|split; [|split]].
  - intros Hne Hfree. exists (PyStr.join PyText.newline tokens).
    split; [apply written_content|].
    now apply split_join.
  - intros other Ho. unfold Pipeline.write_tokens_to_file, Pipeline.write.
    now rewrite Ho.
  - now rewrite written_content.
  - now rewrite written_content.
Qed.

Lemma write_tokens_round_trip_witness :
  exists content,
    Pipeline.write_tokens_to_file "results/2_corpus.txt"
      ["great stay"; ""; "wouldreturn"] (fun _ => None) "results/2_corpus.txt"
    = Some content /\
    PyStr.split (ascii_of_nat 10) content = ["great stay"; ""; "wouldreturn"].
Proof.
  apply (proj1 (write_tokens_round_trip "results/2_corpus.txt"
                  ["great stay"; ""; "wouldreturn"] (fun _ => None))).
  - discriminate.
  - repeat constructor.
Defined.
